(** * The product-variant create mutation of saleor

    A shallow embedding of
    [saleor/graphql/product/mutations/product_variant/product_variant_create.py]:
    the clean phase ([clean_input], [clean_attributes], [get_product],
    [check_for_duplicates_in_stocks]) in an error monad, and the persist phase
    ([set_track_inventory], [save], [create_variant_stocks]) as explicit state
    passing over the database and the log of emitted events.  The functions
    the mutation imports from other modules are the fields of the class
    [Collaborators]. *)

From Stdlib Require Import ZArith QArith.
From stdpp Require Import base option list gmap sets strings pretty.

Local Open Scope Z_scope.

(** ** Validation errors *)

(** The members of [ProductErrorCode] the mutation refers to. *)
Inductive ProductErrorCode : Set :=
| INVALID
| REQUIRED
| UNIQUE
| ATTRIBUTE_CANNOT_BE_ASSIGNED
| NOT_FOUND.

(** Django's [ValidationError]: either one message with its code and params
    ([ValidationError(message, code, params)]), or a dict from field names to
    errors ([ValidationError({field: error})]).  [params] is a dict whose
    values, here, are sets of global IDs. *)
#[warnings="-register-all"]
Inductive ValidationError : Type :=
| Error (message : string) (code : option ProductErrorCode)
        (params : list (string * gset string))
| ErrorDict (error_dict : list (string * ValidationError)).

(** What the persist phase can raise: a [ValidationError], or an error of the
    database. *)
Inductive Exception : Type :=
| Validation (e : ValidationError)
| DatabaseError (message : string).

(** ** The exception monad *)

Inductive Result (E A : Type) : Type :=
| Return (a : A)
| Raise (e : E).

Arguments Return {E A} a.
Arguments Raise {E A} e.

Global Instance Result_ret {E : Type} : MRet (Result E) := λ A a, Return a.

Global Instance Result_bind {E : Type} : MBind (Result E) := λ A B k m,
  match m with
  | Return a => k a
  | Raise e => Raise e
  end.

(** [try: m except ValidationError as e: h e] *)
Definition try_except {E A : Type} (m : Result E A) (h : E → Result E A) : Result E A :=
  match m with
  | Return a => Return a
  | Raise e => h e
  end.

Definition succeeded {E A : Type} (m : Result E A) : bool :=
  match m with Return _ => true | Raise _ => false end.

(** ** The data model *)

Module Attribute.
Record t : Set := { pk : Z; value_required : bool }.
End Attribute.

Module ProductType.
Record t : Set :=
  { pk : Z;
    has_variants : bool;
    variant_attributes : list Attribute.t }.
End ProductType.

(** [default_variant] holds the primary key of the variant the product points
    to ([default_variant_id]); [None] is Python's [None]. *)
Module Product.
Record t : Set :=
  { pk : Z;
    product_type : ProductType.t;
    default_variant : option Z;
    search_index_dirty : bool }.

Definition set_default_variant (v : option Z) (p : t) : t :=
  {| pk := pk p; product_type := product_type p;
     default_variant := v; search_index_dirty := search_index_dirty p |}.

Definition set_search_index_dirty (b : bool) (p : t) : t :=
  {| pk := pk p; product_type := product_type p;
     default_variant := default_variant p; search_index_dirty := b |}.
End Product.

Module Weight.
Record t : Set := { value : Q; unit : string }.
End Weight.

(** [pk = None] is an instance that was never saved. *)
Module ProductVariant.
Record t : Set :=
  { pk : option Z;
    product : Product.t;
    sku : option string;
    name : string;
    track_inventory : bool;
    weight : option Weight.t;
    quantity_limit_per_customer : option Z;
    external_reference : option string }.

Definition set_pk (k : option Z) (v : t) : t :=
  {| pk := k; product := product v; sku := sku v; name := name v;
     track_inventory := track_inventory v; weight := weight v;
     quantity_limit_per_customer := quantity_limit_per_customer v;
     external_reference := external_reference v |}.

Definition set_product (p : Product.t) (v : t) : t :=
  {| pk := pk v; product := p; sku := sku v; name := name v;
     track_inventory := track_inventory v; weight := weight v;
     quantity_limit_per_customer := quantity_limit_per_customer v;
     external_reference := external_reference v |}.

Definition set_name (n : string) (v : t) : t :=
  {| pk := pk v; product := product v; sku := sku v; name := n;
     track_inventory := track_inventory v; weight := weight v;
     quantity_limit_per_customer := quantity_limit_per_customer v;
     external_reference := external_reference v |}.

Definition set_track_inventory (b : bool) (v : t) : t :=
  {| pk := pk v; product := product v; sku := sku v; name := name v;
     track_inventory := b; weight := weight v;
     quantity_limit_per_customer := quantity_limit_per_customer v;
     external_reference := external_reference v |}.
End ProductVariant.

(** The raw attribute input of the caller: [attr["id"]] and its values. *)
Module AttributeValueInput.
Record t : Set := { id : string; values : list string }.
End AttributeValueInput.

Module AttrValuesInput.
Record t : Set := { global_id : string; values : list string }.
End AttrValuesInput.

Module StockInput.
Record t : Set := { warehouse : string; quantity : Z }.
End StockInput.

Module PreorderSettingsInput.
Record t : Set := { global_threshold : option Z; end_date : option Z }.
End PreorderSettingsInput.

Definition T_INPUT_MAP : Set := list (Attribute.t * AttrValuesInput.t).

(** The dict [cleaned_input].  A field is [None] when [cleaned_input.get]
    gives [None]; for [sku] the source also asks whether the key is there, so
    [sku = Some None] is the key bound to [None].  [clean_attributes] replaces
    the list of raw attribute inputs under ["attributes"] by a [T_INPUT_MAP],
    hence the parameter [A]. *)
Module cleaned_input.
Record t (A : Type) : Type :=
  { product : option Product.t;
    attributes : option (list A);
    stocks : option (list StockInput.t);
    sku : option (option string);
    name : option string;
    track_inventory : option bool;
    weight : option Weight.t;
    preorder : option PreorderSettingsInput.t;
    quantity_limit_per_customer : option Z;
    metadata : option (list (string * string));
    private_metadata : option (list (string * string));
    external_reference : option string }.

Arguments product {A} _.
Arguments attributes {A} _.
Arguments stocks {A} _.
Arguments sku {A} _.
Arguments name {A} _.
Arguments track_inventory {A} _.
Arguments weight {A} _.
Arguments preorder {A} _.
Arguments quantity_limit_per_customer {A} _.
Arguments metadata {A} _.
Arguments private_metadata {A} _.
Arguments external_reference {A} _.

(** [cleaned_input["attributes"] = v] *)
Definition set_attributes {A B : Type} (v : option (list B)) (c : t A) : t B :=
  {| product := product c; attributes := v; stocks := stocks c;
     sku := sku c; name := name c; track_inventory := track_inventory c;
     weight := weight c; preorder := preorder c;
     quantity_limit_per_customer := quantity_limit_per_customer c;
     metadata := metadata c; private_metadata := private_metadata c;
     external_reference := external_reference c |}.

(** [cleaned_input["sku"] = v] *)
Definition set_sku {A : Type} (v : option string) (c : t A) : t A :=
  {| product := product c; attributes := attributes c; stocks := stocks c;
     sku := Some v; name := name c; track_inventory := track_inventory c;
     weight := weight c; preorder := preorder c;
     quantity_limit_per_customer := quantity_limit_per_customer c;
     metadata := metadata c; private_metadata := private_metadata c;
     external_reference := external_reference c |}.
End cleaned_input.

(** Python's truth value of [cleaned_input.get(key)] for a list: [None] and
    the empty list are false. *)
Definition truthy {A : Type} (v : option (list A)) : bool :=
  match v with
  | Some (_ :: _) => true
  | _ => false
  end.

(** [v or []] *)
Definition or_empty {A : Type} (v : option (list A)) : list A :=
  match v with
  | Some l => l
  | None => []
  end.


(** [sep.join(l)] *)
Fixpoint join (sep : string) (l : list string) : string :=
  match l with
  | [] => ""
  | [x] => x
  | x :: l' => x +:+ sep +:+ join sep l'
  end.

(** [values.count(x)] *)
Definition count (values : list string) (x : string) : nat :=
  length (filter (λ value, value = x) values).

(** ** The collaborators

    What the mutation calls and this file does not define: graphene, the
    base mutation class, the [cleaner] module, the attribute-assignment
    mixin, the ORM and the plugin manager.  Each is given the arguments the
    source passes to it; one that reads or writes rows also gets the
    database, and what it can change is what its result holds.  A cleaner
    gets the dict and gives it back, since it may assign to its keys. *)
Class Collaborators : Type :=
  { ResolveInfo : Type;
    Data : Type;
    UsedAttributeValues : Type;
    Warehouse : Type;
    Database : Type;
    (** [graphene.Node.to_global_id] *)
    to_global_id : string → Z → string;
    (** [super().clean_input] of [DeprecatedModelMutation] *)
    ModelMutation_clean_input :
      ResolveInfo → ProductVariant.t → Data →
      Result ValidationError (cleaned_input.t AttributeValueInput.t);
    (** [cleaner.clean_weight], [cleaner.clean_quantity_limit],
        [cleaner.clean_preorder_settings] *)
    clean_weight :
      ∀ A, cleaned_input.t A → Result ValidationError (cleaned_input.t A);
    clean_quantity_limit :
      ∀ A, cleaned_input.t A → Result ValidationError (cleaned_input.t A);
    clean_preorder_settings :
      ∀ A, cleaned_input.t A → Result ValidationError (cleaned_input.t A);
    clean_variant_sku : option string → option string;
    get_used_variants_attribute_values : Product.t → UsedAttributeValues;
    (** [AttributeAssignmentMixin.clean_input] *)
    AttributeAssignmentMixin_clean_input :
      list AttributeValueInput.t → list Attribute.t →
      Result ValidationError T_INPUT_MAP;
    (** [cleaner.validate_duplicated_attribute_values] *)
    validate_duplicated_attribute_values :
      T_INPUT_MAP → UsedAttributeValues → Result ValidationError ();
    (** [get_duplicated_values], as the sequence [", ".join] iterates over *)
    get_duplicated_values : list string → list string;
    get_track_inventory_by_default : ResolveInfo → option bool;
    (** [Model.save] of a variant: the UPDATE of the row of an instance that
        has a primary key, and the INSERT, which gives the new row's key, of
        one that has none *)
    update_variant : ProductVariant.t → Database → Result Exception Database;
    insert_variant : ProductVariant.t → Database → Result Exception (Z * Database);
    (** [product.save(update_fields=...)] *)
    save_product : list string → Product.t → Database → Result Exception Database;
    (** [cls.get_nodes_or_error(ids, field, only_type=Warehouse)] *)
    get_nodes_or_error :
      list string → string → Database → Result Exception (list Warehouse);
    create_stocks :
      ProductVariant.t → list StockInput.t → list Warehouse → Database →
      Result Exception Database;
    (** [AttributeAssignmentMixin.save] *)
    AttributeAssignmentMixin_save :
      ProductVariant.t → T_INPUT_MAP → Database → Result Exception Database;
    (** [generate_and_set_variant_name]: the name it gives the variant, and
        the database after it saved the row's name *)
    generate_and_set_variant_name :
      ProductVariant.t → option string → Database →
      Result Exception (string * Database) }.

Arguments clean_weight {_ A} _.
Arguments clean_quantity_limit {_ A} _.
Arguments clean_preorder_settings {_ A} _.

(** ** The clean phase *)

Section Clean.
Context `{Collaborators}.

Definition get_product {A : Type} (cleaned_input : cleaned_input.t A)
  : Result ValidationError Product.t :=
  match cleaned_input.product cleaned_input with
  | None =>
      Raise (ErrorDict
               [("product", Error "Product cannot be set empty." (Some INVALID) [])])
  | Some product => Return product
  end.

(** The error [get_product] raises. *)
Definition product_cannot_be_empty : ValidationError :=
  ErrorDict [("product", Error "Product cannot be set empty." (Some INVALID) [])].

(** The global IDs of [product_type.variant_attributes]. *)
Definition variant_attributes_ids (product_type : ProductType.t) : gset string :=
  list_to_set
    ((λ attr, to_global_id "Attribute" (Attribute.pk attr))
       <$> ProductType.variant_attributes product_type).

(** [{attr["id"] for attr in attributes or []}] *)
Definition attributes_ids (attributes : option (list AttributeValueInput.t))
  : gset string :=
  list_to_set (AttributeValueInput.id <$> or_empty attributes).

(** A false [attributes] ([None] or the empty list) stays under its key as it
    is when [clean_attributes] returns. *)
Definition left_as_is {A B : Type} (attributes : option (list A)) : option (list B) :=
  match attributes with
  | None => None
  | Some _ => Some []
  end.

(** [except ValidationError as e: raise ValidationError({"attributes": e})]
    is the handler of [try_except] below.  It is modelled for an [e] that
    carries a message, where Django files [e] under the field; for an [e]
    that is itself a dict of fields Django's constructor fails on
    [e.error_list], which this type of errors has no value for. *)
Definition clean_attributes
    (cleaned_input : cleaned_input.t AttributeValueInput.t)
    (instance : ProductVariant.t)
  : Result ValidationError (cleaned_input.t (Attribute.t * AttrValuesInput.t)) :=
  product ← get_product cleaned_input;
  let product_type := Product.product_type product in
  let used_attribute_values := get_used_variants_attribute_values product in
  let attributes := cleaned_input.attributes cleaned_input in
  let invalid_attributes :=
    attributes_ids attributes ∖ variant_attributes_ids product_type in
  if bool_decide (0 < size invalid_attributes)%nat then
    Raise (Error "Given attributes are not a variant attributes."
             (Some ATTRIBUTE_CANNOT_BE_ASSIGNED)
             [("attributes", invalid_attributes)])
  else if ProductType.has_variants product_type then
    try_except
      (if truthy attributes then
         let attributes_qs := ProductType.variant_attributes product_type in
         cleaned_attributes ←
           AttributeAssignmentMixin_clean_input (or_empty attributes) attributes_qs;
         validate_duplicated_attribute_values cleaned_attributes used_attribute_values;;
         Return (cleaned_input.set_attributes (Some cleaned_attributes) cleaned_input)
       else if truthy (Some (filter (λ attr, Attribute.value_required attr = true)
                               (ProductType.variant_attributes product_type))) then
         Raise (Error "All required attributes must take a value." (Some REQUIRED) [])
       else
         Return (cleaned_input.set_attributes (left_as_is attributes) cleaned_input))
      (λ e, Raise (ErrorDict [("attributes", e)]))
  else
    if truthy attributes then
      Raise (Error "Cannot assign attributes for product type without variants"
               (Some INVALID) [])
    else
      Return (cleaned_input.set_attributes (left_as_is attributes) cleaned_input).

Definition check_for_duplicates_in_stocks (stocks_data : list StockInput.t)
  : Result ValidationError () :=
  let warehouse_ids := StockInput.warehouse <$> stocks_data in
  let duplicates := get_duplicated_values warehouse_ids in
  if truthy (Some duplicates) then
    let error_msg := "Duplicated warehouse ID: " +:+ join ", " duplicates in
    Raise (ErrorDict [("stocks", Error error_msg (Some UNIQUE) [])])
  else
    Return ().

(** [if stocks := cleaned_input.get("stocks"):
        cls.check_for_duplicates_in_stocks(stocks)] *)
Definition check_stocks {A : Type} (cleaned_input : cleaned_input.t A)
  : Result ValidationError () :=
  let stocks := cleaned_input.stocks cleaned_input in
  if truthy stocks then check_for_duplicates_in_stocks (or_empty stocks)
  else Return ().

(** [if "sku" in cleaned_input:
        cleaned_input["sku"] = clean_variant_sku(cleaned_input.get("sku"))] *)
Definition clean_sku {A : Type} (cleaned_input : cleaned_input.t A)
  : cleaned_input.t A :=
  match cleaned_input.sku cleaned_input with
  | Some sku => cleaned_input.set_sku (clean_variant_sku sku) cleaned_input
  | None => cleaned_input
  end.

Definition clean_input (info : ResolveInfo) (instance : ProductVariant.t) (data : Data)
  : Result ValidationError (cleaned_input.t (Attribute.t * AttrValuesInput.t)) :=
  cleaned_input ← ModelMutation_clean_input info instance data;
  cleaned_input ← clean_weight cleaned_input;
  cleaned_input ← clean_quantity_limit cleaned_input;
  check_stocks cleaned_input;;
  cleaned_input ← clean_attributes cleaned_input instance;
  let cleaned_input := clean_sku cleaned_input in
  cleaned_input ← clean_preorder_settings cleaned_input;
  Return cleaned_input.

End Clean.

(** ** The persist phase *)

(** The calls [call_event] hands to the plugin manager. *)
Inductive Event : Set :=
| product_variant_created (instance : ProductVariant.t)
| product_variant_updated (instance : ProductVariant.t).

Section Persist.
Context `{Collaborators}.

(** What [save] works on besides the instance: the rows of the database and
    the events emitted so far. *)
Record State : Type := { database : Database; events : list Event }.

Definition set_track_inventory (_info : ResolveInfo) (instance : ProductVariant.t)
    {A : Type} (cleaned_input : cleaned_input.t A) : ProductVariant.t :=
  let track_inventory_by_default := get_track_inventory_by_default _info in
  let track_inventory := cleaned_input.track_inventory cleaned_input in
  match track_inventory_by_default with
  | Some by_default =>
      ProductVariant.set_track_inventory
        (match track_inventory with
         | None => by_default
         | Some explicit => explicit
         end)
        instance
  | None => instance
  end.

(** [instance.save()]: an instance without a primary key gets the one of the
    row inserted for it. *)
Definition Model_save (instance : ProductVariant.t) (db : Database)
  : Result Exception (ProductVariant.t * Database) :=
  match ProductVariant.pk instance with
  | Some _ =>
      db ← update_variant instance db;
      Return (instance, db)
  | None =>
      '(pk, db) ← insert_variant instance db;
      Return (ProductVariant.set_pk (Some pk) instance, db)
  end.

Definition create_variant_stocks (variant : ProductVariant.t)
    (stocks : list StockInput.t) (db : Database) : Result Exception Database :=
  let warehouse_ids := StockInput.warehouse <$> stocks in
  warehouses ← get_nodes_or_error warehouse_ids "warehouse" db;
  create_stocks variant stocks warehouses db.

(** [cls.call_event(event_to_call, instance)] *)
Definition call_event (event_to_call : ProductVariant.t → Event)
    (instance : ProductVariant.t) (events : list Event) : list Event :=
  events ++ [event_to_call instance].

(** The body of [with traced_atomic_transaction()] runs on the database of
    the state; when it raises, the result holds no database, and the one the
    caller had is the one that stays. *)
Definition save (info : ResolveInfo) (instance : ProductVariant.t)
    (cleaned_input : cleaned_input.t (Attribute.t * AttrValuesInput.t))
    (st : State) : Result Exception (ProductVariant.t * State) :=
  let new_variant := bool_decide (ProductVariant.pk instance = None) in
  let instance := set_track_inventory info instance cleaned_input in
  '(instance, db) ← Model_save instance (database st);
  '(instance, db) ←
    match Product.default_variant (ProductVariant.product instance) with
    | None =>
        let instance :=
          ProductVariant.set_product
            (Product.set_default_variant (ProductVariant.pk instance)
               (ProductVariant.product instance))
            instance in
        db ← save_product ["default_variant"; "updated_at"]
               (ProductVariant.product instance) db;
        Return (instance, db)
    | Some _ => Return (instance, db)
    end;
  let stocks := cleaned_input.stocks cleaned_input in
  db ← (if truthy stocks then create_variant_stocks instance (or_empty stocks) db
        else Return db);
  let attributes := cleaned_input.attributes cleaned_input in
  db ← (if truthy attributes then
          AttributeAssignmentMixin_save instance (or_empty attributes) db
        else Return db);
  '(instance, db) ←
    (if bool_decide (ProductVariant.name instance = "") then
       '(name, db) ←
         generate_and_set_variant_name instance
           (default None (cleaned_input.sku cleaned_input)) db;
       Return (ProductVariant.set_name name instance, db)
     else Return (instance, db));
  let instance :=
    ProductVariant.set_product
      (Product.set_search_index_dirty true (ProductVariant.product instance))
      instance in
  db ← save_product ["search_index_dirty"] (ProductVariant.product instance) db;
  let event_to_call :=
    if new_variant then product_variant_created else product_variant_updated in
  Return (instance,
          {| database := db;
             events := call_event event_to_call instance (events st) |}).

End Persist.

(** ** After the transaction *)

(** A row of [ProductChannelListing]: the product it lists and the channel
    it lists it in. *)
Module ProductChannelListing.
Record t : Set := { product_id : Z; channel_id : Z }.
End ProductChannelListing.

(** The call [post_save_action] hands to [call_event]. *)
Inductive PostSaveCall : Set :=
| mark_active_catalogue_promotion_rules_as_dirty (channel_ids : list Z).

(** [post_save_action], on the rows of [ProductChannelListing.objects] and
    the calls made so far.  [instance.product_id] is the primary key of the
    instance's product; [info] and [cleaned_input] are not used. *)
Definition post_save_action (listings : list ProductChannelListing.t)
    (instance : ProductVariant.t) (calls : list PostSaveCall) : list PostSaveCall :=
  let channel_ids :=
    ProductChannelListing.channel_id
      <$> filter (λ listing,
                    ProductChannelListing.product_id listing
                    = Product.pk (ProductVariant.product instance))
            listings in
  calls ++ [mark_active_catalogue_promotion_rules_as_dirty channel_ids].

(** ** What the claims ask of the collaborators *)

(** Modelled from the spec: [get_duplicated_values] (of
    [saleor/graphql/core/utils]) is not among the sources; the spec has the
    error list "the duplicated warehouse IDs", so the helper gives the values
    that occur more than once, each of them and nothing else. *)
Definition gives_the_duplicated_values `{Collaborators} : Prop :=
  ∀ (values : list string) (x : string),
    x ∈ get_duplicated_values values ↔ (1 < count values x)%nat.

(** What the calls of the persist phase do to the default variant that the
    database holds for each product; [stored db pk] reads it off the row of the
    product [pk].  [product.save(update_fields=...)] writes the product's
    [default_variant] to its row when the field is named in [update_fields],
    and leaves the stored default variants alone otherwise; saving a variant
    row writes no product row.

    Modelled from the spec: [create_stocks], [AttributeAssignmentMixin.save]
    and [generate_and_set_variant_name] are not among the sources; the spec
    has them create stock records, persist attribute-value links and set the
    variant's name, so none of them writes the default variant of a
    product. *)
Record keeps_default_variant `{Collaborators} (stored : Database → Z → option Z)
  : Prop :=
  { stored_save_product_field :
      ∀ update_fields product db db',
        save_product update_fields product db = Return db' →
        "default_variant" ∈ update_fields →
        stored db' (Product.pk product) = Product.default_variant product;
    stored_save_product_other :
      ∀ update_fields product db db' product_pk,
        save_product update_fields product db = Return db' →
        product_pk ≠ Product.pk product ∨ "default_variant" ∉ update_fields →
        stored db' product_pk = stored db product_pk;
    stored_update_variant :
      ∀ instance db db' product_pk,
        update_variant instance db = Return db' →
        stored db' product_pk = stored db product_pk;
    stored_insert_variant :
      ∀ instance db pk db' product_pk,
        insert_variant instance db = Return (pk, db') →
        stored db' product_pk = stored db product_pk;
    stored_create_stocks :
      ∀ variant stocks warehouses db db' product_pk,
        create_stocks variant stocks warehouses db = Return db' →
        stored db' product_pk = stored db product_pk;
    stored_AttributeAssignmentMixin_save :
      ∀ instance attributes db db' product_pk,
        AttributeAssignmentMixin_save instance attributes db = Return db' →
        stored db' product_pk = stored db product_pk;
    stored_generate_and_set_variant_name :
      ∀ variant sku db name db' product_pk,
        generate_and_set_variant_name variant sku db = Return (name, db') →
        stored db' product_pk = stored db product_pk }.

(** ** A reference implementation of the collaborators

    Enough of the rest of the system to run the mutation on concrete inputs:
    the cleaners as the spec describes them, and a database of rows kept in
    finite maps. *)
Module Reference.

(** The rows of the database: variants and products by primary key, the
    stock rows (variant, warehouse, quantity), the attribute values assigned
    to each variant, the warehouses that exist, and the next primary key of
    the variant table. *)
Record database : Type :=
  { variant_rows : gmap Z ProductVariant.t;
    product_rows : gmap Z Product.t;
    stock_rows : list (Z * string * Z);
    attribute_rows : gmap Z T_INPUT_MAP;
    warehouse_ids : list string;
    next_variant_pk : Z }.

Definition set_variant_rows (rows : gmap Z ProductVariant.t) (db : database) : database :=
  {| variant_rows := rows; product_rows := product_rows db;
     stock_rows := stock_rows db; attribute_rows := attribute_rows db;
     warehouse_ids := warehouse_ids db; next_variant_pk := next_variant_pk db |}.

Definition set_product_rows (rows : gmap Z Product.t) (db : database) : database :=
  {| variant_rows := variant_rows db; product_rows := rows;
     stock_rows := stock_rows db; attribute_rows := attribute_rows db;
     warehouse_ids := warehouse_ids db; next_variant_pk := next_variant_pk db |}.

Definition set_stock_rows (rows : list (Z * string * Z)) (db : database) : database :=
  {| variant_rows := variant_rows db; product_rows := product_rows db;
     stock_rows := rows; attribute_rows := attribute_rows db;
     warehouse_ids := warehouse_ids db; next_variant_pk := next_variant_pk db |}.

Definition set_attribute_rows (rows : gmap Z T_INPUT_MAP) (db : database) : database :=
  {| variant_rows := variant_rows db; product_rows := product_rows db;
     stock_rows := stock_rows db; attribute_rows := rows;
     warehouse_ids := warehouse_ids db; next_variant_pk := next_variant_pk db |}.

Definition set_next_variant_pk (k : Z) (db : database) : database :=
  {| variant_rows := variant_rows db; product_rows := product_rows db;
     stock_rows := stock_rows db; attribute_rows := attribute_rows db;
     warehouse_ids := warehouse_ids db; next_variant_pk := k |}.

(** graphene encodes ["Attribute:<pk>"] in base64; the encoding is left out. *)
Definition to_global_id (type : string) (pk : Z) : string :=
  type +:+ ":" +:+ pretty pk.

Definition field_error (field message : string) (code : ProductErrorCode)
  : ValidationError :=
  ErrorDict [(field, Error message (Some code) [])].

(** Modelled from the spec: [cleaner.clean_weight] is not among the sources.
    "Weight: must be a non-negative physical quantity if present; otherwise
    passes through unchanged." *)
Definition clean_weight {A : Type} (cleaned_input : cleaned_input.t A)
  : Result ValidationError (cleaned_input.t A) :=
  match cleaned_input.weight cleaned_input with
  | Some weight =>
      if bool_decide (Qnum (Weight.value weight) < 0)%Z then
        Raise (field_error "weight" "Product variant can't have negative weight." INVALID)
      else Return cleaned_input
  | None => Return cleaned_input
  end.

(** Modelled from the spec: [cleaner.clean_quantity_limit] is not among the
    sources.  "Quantity limit per checkout: must be a positive integer if
    present." *)
Definition clean_quantity_limit {A : Type} (cleaned_input : cleaned_input.t A)
  : Result ValidationError (cleaned_input.t A) :=
  match cleaned_input.quantity_limit_per_customer cleaned_input with
  | Some limit =>
      if bool_decide (limit < 1)%Z then
        Raise (field_error "quantity_limit_per_customer"
                 "The quantity limit needs to be a positive number." INVALID)
      else Return cleaned_input
  | None => Return cleaned_input
  end.

(** Modelled from the spec: [cleaner.clean_preorder_settings] is not among
    the sources.  "Preorder settings: if present, end date (if given) must be
    in the future relative to call time; global threshold must be
    non-negative if given." *)
Definition clean_preorder_settings (now : Z) {A : Type}
    (cleaned_input : cleaned_input.t A)
  : Result ValidationError (cleaned_input.t A) :=
  match cleaned_input.preorder cleaned_input with
  | Some preorder =>
      if from_option (λ end_date, bool_decide (end_date ≤ now)%Z) false
           (PreorderSettingsInput.end_date preorder) then
        Raise (field_error "preorder_end_date"
                 "End date must be in the future." INVALID)
      else if from_option (λ threshold, bool_decide (threshold < 0)%Z) false
                (PreorderSettingsInput.global_threshold preorder) then
        Raise (field_error "preorder_global_threshold"
                 "Threshold must be non-negative." INVALID)
      else Return cleaned_input
  | None => Return cleaned_input
  end.

Fixpoint lstrip (s : string) : string :=
  match s with
  | String (Ascii.Ascii false false false false false true false false) s' => lstrip s'
  | _ => s
  end.

Definition strip (s : string) : string :=
  String.rev (lstrip (String.rev (lstrip s))).

(** Modelled from the spec: [clean_variant_sku] is not among the sources.
    "SKU: normalized (e.g., trimmed)". *)
Definition clean_variant_sku (sku : option string) : option string :=
  strip <$> sku.

(** Modelled from the spec: [get_duplicated_values] is not among the sources;
    it gives "the duplicated warehouse IDs", each once.  The order in which
    Python iterates over the result is not fixed; here it is that of the last
    occurrences. *)
Definition get_duplicated_values (values : list string) : list string :=
  remove_dups (filter (λ value, 1 < count values value)%nat values).

(** Modelled from the spec: [AttributeAssignmentMixin.clean_input] is not
    among the sources.  Each input is paired with the attribute of
    [attributes_qs] it names; the types of attributes are no part of the
    data model here, so of "each value is validated against its attribute's
    declared type" the model keeps that an attribute marked value-required
    gets a value. *)
Fixpoint AttributeAssignmentMixin_clean_input
    (attributes : list AttributeValueInput.t) (attributes_qs : list Attribute.t)
  : Result ValidationError T_INPUT_MAP :=
  match attributes with
  | [] => Return []
  | input :: attributes =>
      match
        List.find (λ attr, bool_decide (to_global_id "Attribute" (Attribute.pk attr)
                                        = AttributeValueInput.id input))
          attributes_qs
      with
      | None =>
          Raise (Error "Could not resolve to a node." (Some NOT_FOUND)
                   [("attributes", {[AttributeValueInput.id input]})])
      | Some attr =>
          if Attribute.value_required attr
             && bool_decide (AttributeValueInput.values input = []) then
            Raise (Error "Attribute expects a value but none were given."
                     (Some REQUIRED)
                     [("attributes", {[AttributeValueInput.id input]})])
          else
            cleaned ← AttributeAssignmentMixin_clean_input attributes attributes_qs;
            Return ((attr,
                     {| AttrValuesInput.global_id := AttributeValueInput.id input;
                        AttrValuesInput.values := AttributeValueInput.values input |})
                      :: cleaned)
      end
  end.

(** The combination of values a cleaned input assigns, attribute by attribute. *)
Definition combination (cleaned : T_INPUT_MAP) : list (Z * list string) :=
  (λ '(attr, values), (Attribute.pk attr, AttrValuesInput.values values)) <$> cleaned.

(** Modelled from the spec: [cleaner.validate_duplicated_attribute_values] is
    not among the sources.  "reject if an identical value combination is
    already used by another variant of the same product". *)
Definition validate_duplicated_attribute_values
    (cleaned_attributes : T_INPUT_MAP) (used : list (list (Z * list string)))
  : Result ValidationError () :=
  if bool_decide (combination cleaned_attributes ∈ used) then
    Raise (Error "Duplicated attribute values for product variant." (Some UNIQUE) [])
  else Return ().

Definition update_variant (instance : ProductVariant.t) (db : database)
  : Result Exception database :=
  match ProductVariant.pk instance with
  | Some pk => Return (set_variant_rows (<[pk := instance]> (variant_rows db)) db)
  | None => Raise (DatabaseError "Cannot update a row without a primary key.")
  end.

Definition insert_variant (instance : ProductVariant.t) (db : database)
  : Result Exception (Z * database) :=
  let pk := next_variant_pk db in
  Return (pk,
          set_next_variant_pk (pk + 1)
            (set_variant_rows
               (<[pk := ProductVariant.set_pk (Some pk) instance]> (variant_rows db))
               db)).

(** Only the fields named in [update_fields] are written to the row of the
    product; a save with [update_fields] of a product that has no row is an
    error of the database. *)
Definition save_product (update_fields : list string) (product : Product.t)
    (db : database) : Result Exception database :=
  match product_rows db !! Product.pk product with
  | None => Raise (DatabaseError "Save with update_fields did not affect any rows.")
  | Some row =>
      let row :=
        if bool_decide ("default_variant" ∈ update_fields) then
          Product.set_default_variant (Product.default_variant product) row
        else row in
      let row :=
        if bool_decide ("search_index_dirty" ∈ update_fields) then
          Product.set_search_index_dirty (Product.search_index_dirty product) row
        else row in
      Return (set_product_rows (<[Product.pk product := row]> (product_rows db)) db)
  end.

(** The default variant the row of a product holds. *)
Definition stored_default_variant (db : database) (product_pk : Z) : option Z :=
  row ← product_rows db !! product_pk; Product.default_variant row.

(** Modelled from the spec: [get_nodes_or_error] is not among the sources.
    "resolve its warehouse reference to a warehouse entity (fails with
    NOT_FOUND if unresolvable)". *)
Definition get_nodes_or_error (ids : list string) (field : string) (db : database)
  : Result Exception (list string) :=
  if bool_decide (Forall (λ id, id ∈ warehouse_ids db) ids) then Return ids
  else Raise (Validation (field_error field "Could not resolve to a node." NOT_FOUND)).

(** Modelled from the spec: [create_stocks] is not among the sources.
    "create one stock record per (variant, warehouse) pair with the given
    quantity". *)
Definition create_stocks (variant : ProductVariant.t) (stocks : list StockInput.t)
    (warehouses : list string) (db : database) : Result Exception database :=
  match ProductVariant.pk variant with
  | Some pk =>
      Return (set_stock_rows
                (stock_rows db
                   ++ zip_with (λ stock warehouse, (pk, warehouse, StockInput.quantity stock))
                        stocks warehouses)
                db)
  | None => Raise (DatabaseError "The variant has no primary key.")
  end.

(** Modelled from the spec: [AttributeAssignmentMixin.save] is not among the
    sources.  "persists the attribute-value links, replacing prior links for
    each attribute key". *)
Definition AttributeAssignmentMixin_save (instance : ProductVariant.t)
    (attributes : T_INPUT_MAP) (db : database) : Result Exception database :=
  match ProductVariant.pk instance with
  | Some pk =>
      let kept :=
        filter (λ link, Forall (λ new, Attribute.pk new.1 ≠ Attribute.pk link.1) attributes)
          (default [] (attribute_rows db !! pk)) in
      Return (set_attribute_rows (<[pk := kept ++ attributes]> (attribute_rows db)) db)
  | None => Raise (DatabaseError "The variant has no primary key.")
  end.

(** Modelled from the spec: [generate_and_set_variant_name] is not among the
    sources.  "derive and set one from SKU and attribute values": the values
    assigned to the variant, or else the SKU, or else the variant's ID. *)
Definition generate_and_set_variant_name (variant : ProductVariant.t)
    (sku : option string) (db : database) : Result Exception (string * database) :=
  match ProductVariant.pk variant with
  | Some pk =>
      let values :=
        mjoin ((λ link, AttrValuesInput.values link.2)
                 <$> default [] (attribute_rows db !! pk)) in
      let name :=
        if bool_decide (values = []) then
          default (to_global_id "ProductVariant" pk) sku
        else join " / " values in
      Return (name,
              set_variant_rows
                (<[pk := ProductVariant.set_name name variant]> (variant_rows db)) db)
  | None => Raise (DatabaseError "The variant has no primary key.")
  end.

Section Instance.

(** The clock of the request, and the value combinations the variants of a
    product already use, by the product's primary key. *)
Variable now : Z.
Variable used_values : Z → list (list (Z * list string)).

(** The raw input arrives with its references resolved, and the request's
    context holds the shop's [track_inventory_by_default]. *)
Definition collaborators : Collaborators :=
  Build_Collaborators
    (option bool)
    (cleaned_input.t AttributeValueInput.t)
    (list (list (Z * list string)))
    string
    database
    to_global_id
    (λ _ _ data, Return data)
    (@clean_weight)
    (@clean_quantity_limit)
    (@clean_preorder_settings now)
    clean_variant_sku
    (λ product, used_values (Product.pk product))
    AttributeAssignmentMixin_clean_input
    validate_duplicated_attribute_values
    get_duplicated_values
    (λ info, info)
    update_variant
    insert_variant
    save_product
    get_nodes_or_error
    create_stocks
    AttributeAssignmentMixin_save
    generate_and_set_variant_name.

End Instance.

End Reference.

(** ** Concrete inputs

    A shop with a configurable product type (shirts, with a required colour
    and an optional fit) and one without variants (gift cards), run on the
    reference collaborators. *)
Module Example.

Definition shop : Collaborators := Reference.collaborators 1000 (λ _, []).

Definition colour : Attribute.t := {| Attribute.pk := 1; Attribute.value_required := true |}.
Definition fit : Attribute.t := {| Attribute.pk := 2; Attribute.value_required := false |}.

Definition shirts : ProductType.t :=
  {| ProductType.pk := 1; ProductType.has_variants := true;
     ProductType.variant_attributes := [colour; fit] |}.

Definition gift_cards : ProductType.t :=
  {| ProductType.pk := 2; ProductType.has_variants := false;
     ProductType.variant_attributes := [fit] |}.

Definition shirt : Product.t :=
  {| Product.pk := 10; Product.product_type := shirts;
     Product.default_variant := None; Product.search_index_dirty := false |}.

Definition gift_card : Product.t :=
  {| Product.pk := 11; Product.product_type := gift_cards;
     Product.default_variant := Some 5; Product.search_index_dirty := false |}.

(** A variant that was never saved, and one that has a row already. *)
Definition new_variant (product : Product.t) : ProductVariant.t :=
  {| ProductVariant.pk := None; ProductVariant.product := product;
     ProductVariant.sku := Some "TS-1"; ProductVariant.name := "";
     ProductVariant.track_inventory := true; ProductVariant.weight := None;
     ProductVariant.quantity_limit_per_customer := None;
     ProductVariant.external_reference := None |}.

Definition saved_variant (product : Product.t) : ProductVariant.t :=
  {| ProductVariant.pk := Some 7; ProductVariant.product := product;
     ProductVariant.sku := Some "TS-1"; ProductVariant.name := "Red shirt";
     ProductVariant.track_inventory := true; ProductVariant.weight := None;
     ProductVariant.quantity_limit_per_customer := None;
     ProductVariant.external_reference := None |}.

(** The dict of an input that gives a product, attributes and stocks. *)
Definition input {A : Type} (product : option Product.t) (attributes : list A)
    (stocks : list StockInput.t) : cleaned_input.t A :=
  {| cleaned_input.product := product;
     cleaned_input.attributes := Some attributes;
     cleaned_input.stocks := Some stocks;
     cleaned_input.sku := Some (Some " TS-1 ");
     cleaned_input.name := None;
     cleaned_input.track_inventory := None;
     cleaned_input.weight := None;
     cleaned_input.preorder := None;
     cleaned_input.quantity_limit_per_customer := None;
     cleaned_input.metadata := None;
     cleaned_input.private_metadata := None;
     cleaned_input.external_reference := None |}.

(** The same input with a weight. *)
Definition weighing {A : Type} (weight : Q) (c : cleaned_input.t A) : cleaned_input.t A :=
  {| cleaned_input.product := cleaned_input.product c;
     cleaned_input.attributes := cleaned_input.attributes c;
     cleaned_input.stocks := cleaned_input.stocks c;
     cleaned_input.sku := cleaned_input.sku c;
     cleaned_input.name := cleaned_input.name c;
     cleaned_input.track_inventory := cleaned_input.track_inventory c;
     cleaned_input.weight := Some {| Weight.value := weight; Weight.unit := "kg" |};
     cleaned_input.preorder := cleaned_input.preorder c;
     cleaned_input.quantity_limit_per_customer :=
       cleaned_input.quantity_limit_per_customer c;
     cleaned_input.metadata := cleaned_input.metadata c;
     cleaned_input.private_metadata := cleaned_input.private_metadata c;
     cleaned_input.external_reference := cleaned_input.external_reference c |}.

Definition attribute (id : string) (values : list string) : AttributeValueInput.t :=
  {| AttributeValueInput.id := id; AttributeValueInput.values := values |}.

Definition stock (warehouse : string) (quantity : Z) : StockInput.t :=
  {| StockInput.warehouse := warehouse; StockInput.quantity := quantity |}.

Definition db : Reference.database :=
  {| Reference.variant_rows := ∅;
     Reference.product_rows := {[ 10 := shirt; 11 := gift_card ]};
     Reference.stock_rows := [];
     Reference.attribute_rows := ∅;
     Reference.warehouse_ids := ["W1"; "W2"];
     Reference.next_variant_pk := 1 |}.

(** The state before the request: the rows above, and no event yet. *)
Definition state : @State shop := @Build_State shop db [].

(** A red shirt with stock in two warehouses, cleaned and saved. *)
Definition red_shirt : cleaned_input.t AttributeValueInput.t :=
  input (Some shirt) [attribute "Attribute:1" ["red"]] [stock "W1" 5; stock "W2" 3].

Definition cleaned_red_shirt : cleaned_input.t (Attribute.t * AttrValuesInput.t) :=
  match clean_input (H:=shop) None (new_variant shirt) red_shirt with
  | Return cleaned => cleaned
  | Raise _ => cleaned_input.set_attributes None red_shirt
  end.

Definition created : Result Exception (ProductVariant.t * @State shop) :=
  save (H:=shop) (Some false) (new_variant shirt) cleaned_red_shirt state.

Definition created_variant : ProductVariant.t :=
  match created with
  | Return (instance, _) => instance
  | Raise _ => new_variant shirt
  end.

Definition state_after : @State shop :=
  match created with
  | Return (_, st) => st
  | Raise _ => state
  end.

(** The variant of the run above, saved once more with a new input. *)
Definition updated : Result Exception (ProductVariant.t * @State shop) :=
  save (H:=shop) (Some true) created_variant
    (cleaned_input.set_attributes None red_shirt) state_after.

Definition updated_variant : ProductVariant.t :=
  match updated with
  | Return (instance, _) => instance
  | Raise _ => created_variant
  end.

Definition state_updated : @State shop :=
  match updated with
  | Return (_, st) => st
  | Raise _ => state_after
  end.

(** A second variant of the shirt, for the product as the first run left it. *)
Definition second_variant : ProductVariant.t :=
  new_variant (ProductVariant.product created_variant).

Definition second_created : Result Exception (ProductVariant.t * @State shop) :=
  save (H:=shop) None second_variant
    (input (A:=Attribute.t * AttrValuesInput.t) (Some shirt) [] []) state_after.

Definition second_created_variant : ProductVariant.t :=
  match second_created with
  | Return (instance, _) => instance
  | Raise _ => second_variant
  end.

Definition state_second : @State shop :=
  match second_created with
  | Return (_, st) => st
  | Raise _ => state_after
  end.

(** The shirt is listed in channels 1 and 3, the gift card in channel 2. *)
Definition listings : list ProductChannelListing.t :=
  [ {| ProductChannelListing.product_id := 10; ProductChannelListing.channel_id := 1 |};
    {| ProductChannelListing.product_id := 11; ProductChannelListing.channel_id := 2 |};
    {| ProductChannelListing.product_id := 10; ProductChannelListing.channel_id := 3 |} ].

End Example.

(** * Properties *)

(** ** Exceptions *)

(** A sequence raises when its first part does, or when its first part
    returns and what follows raises. *)
Lemma bind_Raise_iff {E A B : Type} (m : Result E A) (k : A → Result E B) (e : E) :
  m ≫= k = Raise e ↔ m = Raise e ∨ ∃ a, m = Return a ∧ k a = Raise e.
Proof.
  destruct m as [a|e']; cbn [mbind Result_bind].
  - split; [intros Hk; right; by exists a | ].
    intros [Hneq | (a' & [= <-] & Hk)]; [discriminate | done].
  - split; [intros [= ->]; by left | ].
    intros [[= ->] | (a & Hneq & _)]; [done | discriminate].
Qed.

Lemma exists_and_iff {A : Type} (P Q R : A → Prop) :
  (∀ a, P a → (Q a ↔ R a)) → (∃ a, P a ∧ Q a) ↔ (∃ a, P a ∧ R a).
Proof.
  intros Hiff. split; intros (a & HP & HQ); exists a; (split; [done |]);
    by apply (Hiff a HP).
Qed.

(** ** Attribute cleaning *)

Section CleanAttributes.
Context `{Collaborators}.

Implicit Types (cleaned_input : cleaned_input.t AttributeValueInput.t).
Implicit Types (instance : ProductVariant.t) (product : Product.t).

Lemma elem_of_variant_attributes_ids (product_type : ProductType.t) (id : string) :
  id ∈ variant_attributes_ids product_type ↔
  ∃ attr, attr ∈ ProductType.variant_attributes product_type
          ∧ id = to_global_id "Attribute" (Attribute.pk attr).
Proof.
  unfold variant_attributes_ids.
  rewrite elem_of_list_to_set, list_elem_of_fmap.
  split; intros (attr & ? & ?); by exists attr.
Qed.

Lemma elem_of_attributes_ids (attributes : option (list AttributeValueInput.t))
    (id : string) :
  id ∈ attributes_ids attributes ↔
  ∃ attr, attr ∈ or_empty attributes ∧ AttributeValueInput.id attr = id.
Proof.
  unfold attributes_ids.
  rewrite elem_of_list_to_set, list_elem_of_fmap.
  split; intros (attr & ? & ?); by exists attr.
Qed.

(** Whether some submitted ID is no variant attribute decides the first
    test of [clean_attributes]. *)
Lemma invalid_attributes_test (attributes : option (list AttributeValueInput.t))
    (product_type : ProductType.t) :
  bool_decide
    (0 < size (attributes_ids attributes ∖ variant_attributes_ids product_type))%nat
  = bool_decide (attributes_ids attributes ⊈ variant_attributes_ids product_type).
Proof.
  apply bool_decide_ext. split.
  - intros [id [Hid Hforeign]%elem_of_difference]%size_pos_elem_of Hsub.
    by apply Hforeign, Hsub.
  - intros Hsub.
    destruct (decide (size (attributes_ids attributes
                              ∖ variant_attributes_ids product_type) = 0%nat))
      as [Hz%size_empty_iff | Hnz]; [| lia].
    exfalso. apply Hsub. intros id Hid.
    destruct (decide (id ∈ variant_attributes_ids product_type)); [done |].
    exfalso.
    apply (not_elem_of_empty (C:=gset string) id), Hz, elem_of_difference. done.
Qed.

Lemma truthy_false_or_empty {A : Type} (v : option (list A)) :
  truthy v = false → or_empty v = [].
Proof. by destruct v as [[|? ?]|]. Qed.

(** [clean_attributes] on an input whose product is given and whose
    attribute IDs are all variant attributes of the product's type. *)
Lemma clean_attributes_allowed cleaned_input instance product :
  cleaned_input.product cleaned_input = Some product →
  attributes_ids (cleaned_input.attributes cleaned_input)
    ⊆ variant_attributes_ids (Product.product_type product) →
  clean_attributes cleaned_input instance =
  let product_type := Product.product_type product in
  let attributes := cleaned_input.attributes cleaned_input in
  if ProductType.has_variants product_type then
    try_except
      (if truthy attributes then
         cleaned_attributes ←
           AttributeAssignmentMixin_clean_input (or_empty attributes)
             (ProductType.variant_attributes product_type);
         validate_duplicated_attribute_values cleaned_attributes
           (get_used_variants_attribute_values product);;
         Return (cleaned_input.set_attributes (Some cleaned_attributes) cleaned_input)
       else if truthy (Some (filter (λ attr, Attribute.value_required attr = true)
                               (ProductType.variant_attributes product_type))) then
         Raise (Error "All required attributes must take a value." (Some REQUIRED) [])
       else
         Return (cleaned_input.set_attributes (left_as_is attributes) cleaned_input))
      (λ e, Raise (ErrorDict [("attributes", e)]))
  else if truthy attributes then
    Raise (Error "Cannot assign attributes for product type without variants"
             (Some INVALID) [])
  else Return (cleaned_input.set_attributes (left_as_is attributes) cleaned_input).
Proof.
  intros Hproduct Hsub. unfold clean_attributes, get_product.
  rewrite Hproduct. cbn [mbind Result_bind].
  rewrite invalid_attributes_test, bool_decide_eq_false_2 by (intros ?; done).
  reflexivity.
Qed.

(** C1. When the attributes of the input name at least one ID that is not in
    the variant-attribute set of the product's type, [clean_attributes] raises
    the error with code ATTRIBUTE_CANNOT_BE_ASSIGNED, and the set in its
    params holds the submitted IDs that are not in the variant-attribute set,
    all of them and no other ID. *)
Theorem clean_attributes_not_variant_attributes cleaned_input instance product :
  cleaned_input.product cleaned_input = Some product →
  (∃ attr, attr ∈ or_empty (cleaned_input.attributes cleaned_input)
           ∧ AttributeValueInput.id attr
               ∉ variant_attributes_ids (Product.product_type product)) →
  ∃ invalid_attributes : gset string,
    clean_attributes cleaned_input instance =
      Raise (Error "Given attributes are not a variant attributes."
               (Some ATTRIBUTE_CANNOT_BE_ASSIGNED)
               [("attributes", invalid_attributes)])
    ∧ ∀ id, id ∈ invalid_attributes ↔
            (∃ attr, attr ∈ or_empty (cleaned_input.attributes cleaned_input)
                     ∧ AttributeValueInput.id attr = id)
            ∧ id ∉ variant_attributes_ids (Product.product_type product).
Proof.
  intros Hproduct (attr & Hattr & Hforeign).
  exists (attributes_ids (cleaned_input.attributes cleaned_input)
            ∖ variant_attributes_ids (Product.product_type product)).
  split.
  - unfold clean_attributes, get_product. rewrite Hproduct. cbn [mbind Result_bind].
    rewrite invalid_attributes_test, bool_decide_eq_true_2; [done |].
    intros Hsub. apply Hforeign, Hsub, elem_of_attributes_ids. eauto.
  - intros id. by rewrite elem_of_difference, elem_of_attributes_ids.
Qed.

(** The rule of the required attributes.  For a configurable product type
    with a variant attribute marked value-required, [clean_attributes] on an
    input that supplies no attributes raises REQUIRED under the "attributes"
    field.  The comment at the branch speaks of attributes "not provided on
    creation"; the function takes the instance and does not read it, so the
    error is raised for an instance without primary key and for one that has
    a key alike. *)
Theorem clean_attributes_required_whatever_the_instance
    cleaned_input instance product :
  cleaned_input.product cleaned_input = Some product →
  ProductType.has_variants (Product.product_type product) = true →
  (∃ attr, attr ∈ ProductType.variant_attributes (Product.product_type product)
           ∧ Attribute.value_required attr = true) →
  truthy (cleaned_input.attributes cleaned_input) = false →
  clean_attributes cleaned_input instance =
    Raise (ErrorDict
             [("attributes",
               Error "All required attributes must take a value." (Some REQUIRED) [])]).
Proof.
  intros Hproduct Hconf (attr & Hattr & Hreq) Hnone.
  rewrite (clean_attributes_allowed _ _ product Hproduct).
  - cbn zeta. rewrite Hconf, Hnone.
    assert (attr ∈ filter (λ attr, Attribute.value_required attr = true)
                     (ProductType.variant_attributes (Product.product_type product)))
      as Hin by (by apply list_elem_of_filter).
    destruct (filter _ _) as [|? ?]; [by apply not_elem_of_nil in Hin | done].
  - intros id (a & Ha & _)%elem_of_attributes_ids.
    rewrite (truthy_false_or_empty _ Hnone) in Ha. by apply not_elem_of_nil in Ha.
Qed.

(** C6, as the code has it.  For a product type with [has_variants] false and
    an input whose attribute IDs are all in the type's variant-attribute set:
    when the input submits an attribute [clean_attributes] raises INVALID
    with the message "Cannot assign attributes for product type without
    variants"; when it submits none, [clean_attributes] returns, and the dict
    is as it was. *)
Theorem clean_attributes_without_variants cleaned_input instance product :
  cleaned_input.product cleaned_input = Some product →
  ProductType.has_variants (Product.product_type product) = false →
  attributes_ids (cleaned_input.attributes cleaned_input)
    ⊆ variant_attributes_ids (Product.product_type product) →
  clean_attributes cleaned_input instance =
    if truthy (cleaned_input.attributes cleaned_input) then
      Raise (Error "Cannot assign attributes for product type without variants"
               (Some INVALID) [])
    else
      Return (cleaned_input.set_attributes
                (left_as_is (cleaned_input.attributes cleaned_input)) cleaned_input).
Proof.
  intros Hproduct Hsimple Hsub.
  rewrite (clean_attributes_allowed _ _ product Hproduct Hsub).
  cbn zeta. by rewrite Hsimple.
Qed.

(** C9. For a product type with [has_variants] false, an input with an
    attribute whose ID is outside the type's variant-attribute set fails with
    ATTRIBUTE_CANNOT_BE_ASSIGNED, the params holding the IDs outside the set;
    and whenever [clean_attributes] raises the INVALID error "Cannot assign
    attributes for product type without variants", every submitted attribute
    ID is in the variant-attribute set of the product's type. *)
Theorem clean_attributes_checks_membership_first cleaned_input instance :
  (∀ product,
     cleaned_input.product cleaned_input = Some product →
     ProductType.has_variants (Product.product_type product) = false →
     (∃ attr, attr ∈ or_empty (cleaned_input.attributes cleaned_input)
              ∧ AttributeValueInput.id attr
                  ∉ variant_attributes_ids (Product.product_type product)) →
     clean_attributes cleaned_input instance =
       Raise (Error "Given attributes are not a variant attributes."
                (Some ATTRIBUTE_CANNOT_BE_ASSIGNED)
                [("attributes",
                  attributes_ids (cleaned_input.attributes cleaned_input)
                    ∖ variant_attributes_ids (Product.product_type product))]))
  ∧ (clean_attributes cleaned_input instance =
       Raise (Error "Cannot assign attributes for product type without variants"
                (Some INVALID) []) →
     ∃ product,
       cleaned_input.product cleaned_input = Some product
       ∧ ProductType.has_variants (Product.product_type product) = false
       ∧ ∀ attr, attr ∈ or_empty (cleaned_input.attributes cleaned_input) →
                 AttributeValueInput.id attr
                   ∈ variant_attributes_ids (Product.product_type product)).
Proof.
  split.
  - intros product Hproduct _ (attr & Hattr & Hforeign).
    unfold clean_attributes, get_product. rewrite Hproduct. cbn [mbind Result_bind].
    rewrite invalid_attributes_test, bool_decide_eq_true_2; [done |].
    intros Hsub. apply Hforeign, Hsub, elem_of_attributes_ids. eauto.
  - unfold clean_attributes, get_product.
    destruct (cleaned_input.product cleaned_input) as [product|]; [| done].
    cbn [mbind Result_bind]. rewrite invalid_attributes_test.
    case_bool_decide as Hsub; [done |].
    destruct (ProductType.has_variants (Product.product_type product)) eqn:Hv.
    + unfold try_except. repeat case_match; congruence.
    + intros _. exists product. repeat split; [done |].
      intros attr Hattr. apply Hsub, elem_of_attributes_ids. eauto.
Qed.

End CleanAttributes.

(** ** Duplicated warehouses *)

Lemma append_assoc (s1 s2 s3 : string) : (s1 +:+ s2) +:+ s3 = s1 +:+ (s2 +:+ s3).
Proof.
  induction s1 as [|c s1 IH]; [done |].
  change (String c ((s1 +:+ s2) +:+ s3) = String c (s1 +:+ (s2 +:+ s3))).
  by f_equal.
Qed.

Lemma append_empty_r (s : string) : s +:+ "" = s.
Proof.
  induction s as [|c s IH]; [done |].
  change (String c (s +:+ "") = String c s). by f_equal.
Qed.

(** Every string joined occurs in the result of [join]. *)
Lemma join_names (sep : string) (l : list string) (x : string) :
  x ∈ l → ∃ before after, join sep l = before +:+ x +:+ after.
Proof.
  induction l as [|y l IH]; [by intros ?%not_elem_of_nil |].
  intros [-> | Hx]%elem_of_cons.
  - destruct l as [|z l].
    + exists "", "". change (y = y +:+ ""). by rewrite append_empty_r.
    + exists "", (sep +:+ join sep (z :: l)). done.
  - destruct (IH Hx) as (before & after & Heq).
    destruct l as [|z l]; [by apply not_elem_of_nil in Hx |].
    exists (y +:+ sep +:+ before), after.
    change (join sep (y :: z :: l)) with (y +:+ sep +:+ join sep (z :: l)).
    by rewrite Heq, !append_assoc.
Qed.

Lemma count_cons (value x : string) (values : list string) :
  count (value :: values) x = ((if decide (value = x) then 1 else 0) + count values x)%nat.
Proof. unfold count. rewrite filter_cons. by case_decide. Qed.

Lemma count_not_elem_of (values : list string) (x : string) :
  x ∉ values → count values x = 0%nat.
Proof.
  induction values as [|value values IH]; [done |].
  intros [Hne Hnotin]%not_elem_of_cons. rewrite count_cons, IH by done.
  by rewrite decide_False.
Qed.

Lemma count_NoDup (values : list string) (x : string) :
  NoDup values → (count values x ≤ 1)%nat.
Proof.
  induction 1 as [|value values Hnotin _ IH]; [cbn; lia |].
  rewrite count_cons. case_decide as Heq; [| lia].
  subst. rewrite count_not_elem_of by done. lia.
Qed.

(** The reference [get_duplicated_values] gives the duplicated values. *)
Lemma reference_gives_the_duplicated_values (now : Z)
    (used_values : Z → list (list (Z * list string))) :
  @gives_the_duplicated_values (Reference.collaborators now used_values).
Proof.
  intros values x. cbn. unfold Reference.get_duplicated_values.
  rewrite elem_of_remove_dups, list_elem_of_filter. split; [by intros [? _] |].
  intros Hcount. split; [done |].
  destruct (decide (x ∈ values)) as [|Hnotin]; [done |].
  rewrite (count_not_elem_of _ _ Hnotin) in Hcount. lia.
Qed.

(** The reference database keeps the default variants in the rows of the
    products, and only [save_product] writes them. *)
Lemma reference_keeps_default_variant (now : Z)
    (used_values : Z → list (list (Z * list string))) :
  @keeps_default_variant (Reference.collaborators now used_values)
    Reference.stored_default_variant.
Proof.
  split; cbn.
  - intros update_fields product db db'. unfold Reference.save_product.
    destruct (Reference.product_rows db !! Product.pk product) as [row|]; [| done].
    intros [= <-] Hfield. unfold Reference.stored_default_variant. cbn.
    rewrite lookup_insert_eq. cbn.
    rewrite (bool_decide_eq_true_2 ("default_variant" ∈ update_fields)) by done.
    by case_bool_decide.
  - intros update_fields product db db' product_pk. unfold Reference.save_product.
    destruct (Reference.product_rows db !! Product.pk product) as [row|] eqn:Hrow;
      [| done].
    intros [= <-] Hother. unfold Reference.stored_default_variant. cbn.
    destruct (decide (product_pk = Product.pk product)) as [-> | Hne].
    + destruct Hother as [? | Hfield]; [done |].
      rewrite lookup_insert_eq, Hrow. cbn.
      rewrite (bool_decide_eq_false_2 ("default_variant" ∈ update_fields)) by done.
      by case_bool_decide.
    + by rewrite lookup_insert_ne.
  - intros instance db db' product_pk. unfold Reference.update_variant.
    destruct (ProductVariant.pk instance); [| done]. by intros [= <-].
  - intros instance db pk db' product_pk. unfold Reference.insert_variant.
    by intros [= _ <-].
  - intros variant stocks warehouses db db' product_pk. unfold Reference.create_stocks.
    destruct (ProductVariant.pk variant); [| done]. by intros [= <-].
  - intros instance attributes db db' product_pk.
    unfold Reference.AttributeAssignmentMixin_save.
    destruct (ProductVariant.pk instance); [| done]. by intros [= <-].
  - intros variant sku db name db' product_pk.
    unfold Reference.generate_and_set_variant_name.
    destruct (ProductVariant.pk variant); [| done]. by intros [= _ <-].
Qed.

Section Stocks.
Context `{Collaborators}.

(** C5. Granted that [get_duplicated_values] gives the values occurring more
    than once: when some warehouse ID occurs more than once in the stocks,
    [check_for_duplicates_in_stocks] raises an error under the "stocks" field
    with code UNIQUE whose message is "Duplicated warehouse ID: " followed by
    the duplicated IDs, and every warehouse ID that occurs more than once is
    among them and is written in the message; when the warehouse IDs are
    pairwise distinct, the check returns. *)
Theorem check_for_duplicates_in_stocks_unique (stocks_data : list StockInput.t) :
  gives_the_duplicated_values →
  ((∃ warehouse,
      (1 < count (StockInput.warehouse <$> stocks_data) warehouse)%nat) →
   ∃ error_msg,
     check_for_duplicates_in_stocks stocks_data =
       Raise (ErrorDict [("stocks", Error error_msg (Some UNIQUE) [])])
     ∧ error_msg =
         "Duplicated warehouse ID: "
           +:+ join ", " (get_duplicated_values (StockInput.warehouse <$> stocks_data))
     ∧ ∀ warehouse,
         (1 < count (StockInput.warehouse <$> stocks_data) warehouse)%nat →
         warehouse ∈ get_duplicated_values (StockInput.warehouse <$> stocks_data)
         ∧ ∃ before after, error_msg = before +:+ warehouse +:+ after)
  ∧ (NoDup (StockInput.warehouse <$> stocks_data) →
     check_for_duplicates_in_stocks stocks_data = Return ()).
Proof.
  intros Hdup. unfold check_for_duplicates_in_stocks. split.
  - intros [w Hw]. eexists. split; [| split; [reflexivity |]].
    + apply Hdup in Hw.
      destruct (get_duplicated_values _) as [|? ?]; [by apply not_elem_of_nil in Hw |].
      reflexivity.
    + intros w' Hw'%Hdup. split; [done |].
      destruct (join_names ", " _ _ Hw') as (before & after & ->).
      exists ("Duplicated warehouse ID: " +:+ before), after.
      by rewrite append_assoc.
  - intros Hnodup.
    destruct (get_duplicated_values _) as [|w ws] eqn:Hvalues; [done |].
    assert (w ∈ get_duplicated_values (StockInput.warehouse <$> stocks_data))
      as Hw%Hdup by (rewrite Hvalues; left).
    pose proof (count_NoDup _ w Hnodup). lia.
Qed.

End Stocks.

(** ** The clean phase as a whole *)

Section CleanInput.
Context `{Collaborators}.

Implicit Types (info : ResolveInfo) (instance : ProductVariant.t) (data : Data).

(** C3, as the code has it.  [clean_input] raises the error of the first step
    that fails, in the order base cleaning, weight, quantity limit, stocks,
    attributes, preorder settings, and that error alone: it raises [e] exactly
    when one of these steps raises [e] on the dict that the steps before it
    returned.  What a later step would have raised is not in the error. *)
Theorem clean_input_raises_the_first_violation info instance data
    (e : ValidationError) :
  clean_input info instance data = Raise e ↔
  ModelMutation_clean_input info instance data = Raise e
  ∨ ∃ c0, ModelMutation_clean_input info instance data = Return c0 ∧
    (clean_weight c0 = Raise e
     ∨ ∃ c1, clean_weight c0 = Return c1 ∧
       (clean_quantity_limit c1 = Raise e
        ∨ ∃ c2, clean_quantity_limit c1 = Return c2 ∧
          (check_stocks c2 = Raise e
           ∨ check_stocks c2 = Return () ∧
             (clean_attributes c2 instance = Raise e
              ∨ ∃ c3, clean_attributes c2 instance = Return c3 ∧
                  clean_preorder_settings (clean_sku c3) = Raise e)))).
Proof.
  unfold clean_input.
  do 3 (rewrite bind_Raise_iff; apply or_iff_compat_l, exists_and_iff; intros ? _).
  rewrite bind_Raise_iff. apply or_iff_compat_l. split.
  - intros ([] & Hstocks & Hrest). split; [done |].
    apply bind_Raise_iff in Hrest as [Hattributes | (c3 & Hattributes & Hrest)];
      [by left | right].
    exists c3. split; [done |].
    by apply bind_Raise_iff in Hrest as [Hpreorder | (c4 & _ & [=])].
  - intros (Hstocks & Hrest). exists (). split; [done |].
    apply bind_Raise_iff.
    destruct Hrest as [Hattributes | (c3 & Hattributes & Hpreorder)]; [by left | right].
    exists c3. split; [done |]. apply bind_Raise_iff. by left.
Qed.

(** C8, as the code has it.  For an input whose product is null,
    [get_product] raises the INVALID error under the "product" field, and
    [clean_attributes] raises it before it looks at the attributes;
    [clean_input] raises it when the steps that run before
    [clean_attributes] (base cleaning, weight, quantity limit and the
    duplicates in stocks) have passed. *)
Theorem clean_input_without_product info instance data
    (c0 c1 c2 : cleaned_input.t AttributeValueInput.t) :
  ModelMutation_clean_input info instance data = Return c0 →
  clean_weight c0 = Return c1 →
  clean_quantity_limit c1 = Return c2 →
  check_stocks c2 = Return () →
  cleaned_input.product c2 = None →
  get_product c2 = Raise product_cannot_be_empty
  ∧ clean_attributes c2 instance = Raise product_cannot_be_empty
  ∧ clean_input info instance data = Raise product_cannot_be_empty.
Proof.
  intros Hbase Hweight Hlimit Hstocks Hnull.
  assert (get_product c2 = Raise product_cannot_be_empty) as Hget
    by (unfold get_product; by rewrite Hnull).
  assert (clean_attributes c2 instance = Raise product_cannot_be_empty) as Hclean
    by (unfold clean_attributes; by rewrite Hget).
  repeat split; [done.. |].
  unfold clean_input. rewrite Hbase. cbn [mbind Result_bind].
  rewrite Hweight. cbn [mbind Result_bind].
  rewrite Hlimit. cbn [mbind Result_bind].
  rewrite Hstocks. cbn [mbind Result_bind].
  by rewrite Hclean.
Qed.

End CleanInput.

(** ** The persist phase *)

(** A sequence returns when its first part returns and what follows does. *)
Lemma bind_Return_inv {E A B : Type} (m : Result E A) (k : A → Result E B) (b : B) :
  m ≫= k = Return b → ∃ a, m = Return a ∧ k a = Return b.
Proof. destruct m as [a|e]; cbn [mbind Result_bind]; [by exists a | done]. Qed.

Section Save.
Context `{Collaborators}.

Implicit Types (info : ResolveInfo) (instance : ProductVariant.t) (st : State).

(** [set_track_inventory] leaves the primary key and the product alone. *)
Lemma set_track_inventory_frame info instance {A : Type}
    (cleaned_input : cleaned_input.t A) :
  ProductVariant.pk (set_track_inventory info instance cleaned_input)
  = ProductVariant.pk instance
  ∧ ProductVariant.product (set_track_inventory info instance cleaned_input)
    = ProductVariant.product instance.
Proof. unfold set_track_inventory. by destruct (get_track_inventory_by_default info). Qed.

(** C10. When the shop's default is [None], [set_track_inventory] gives the
    instance back as it was, whatever the input says; when the default is
    some value, the field becomes the value of the input if it gives one and
    the default if not; and no field other than [track_inventory] changes. *)
Theorem set_track_inventory_only info instance {A : Type}
    (cleaned_input : cleaned_input.t A) :
  (get_track_inventory_by_default info = None →
   set_track_inventory info instance cleaned_input = instance)
  ∧ (∀ by_default,
       get_track_inventory_by_default info = Some by_default →
       ProductVariant.track_inventory (set_track_inventory info instance cleaned_input)
       = default by_default (cleaned_input.track_inventory cleaned_input))
  ∧ ProductVariant.pk (set_track_inventory info instance cleaned_input)
    = ProductVariant.pk instance
  ∧ ProductVariant.product (set_track_inventory info instance cleaned_input)
    = ProductVariant.product instance
  ∧ ProductVariant.sku (set_track_inventory info instance cleaned_input)
    = ProductVariant.sku instance
  ∧ ProductVariant.name (set_track_inventory info instance cleaned_input)
    = ProductVariant.name instance
  ∧ ProductVariant.weight (set_track_inventory info instance cleaned_input)
    = ProductVariant.weight instance
  ∧ ProductVariant.quantity_limit_per_customer
      (set_track_inventory info instance cleaned_input)
    = ProductVariant.quantity_limit_per_customer instance
  ∧ ProductVariant.external_reference (set_track_inventory info instance cleaned_input)
    = ProductVariant.external_reference instance.
Proof.
  unfold set_track_inventory.
  destruct (get_track_inventory_by_default info) as [by_default|].
  - split; [done |]. split; [| done].
    intros ? [= <-]. by destruct (cleaned_input.track_inventory cleaned_input).
  - split; [done |]. split; [| done]. intros ? [=].
Qed.

(** [instance.save()] leaves the instance with a primary key, the one it had
    if it had one, and changes nothing else of it. *)
Lemma Model_save_inv instance (db db' : Database) (saved : ProductVariant.t) :
  Model_save instance db = Return (saved, db') →
  ∃ pk, saved = ProductVariant.set_pk (Some pk) instance
        ∧ ∀ k, ProductVariant.pk instance = Some k → pk = k.
Proof.
  unfold Model_save. destruct instance as [[k|] ? ? ? ? ? ? ?]; cbn.
  - intros (? & _ & [= <- _])%bind_Return_inv. exists k. split; [done |].
    by intros ? [= ->].
  - intros ([pk ?] & _ & [= <- _])%bind_Return_inv. by exists pk.
Qed.

(** What a run of [save] that returns leaves behind: the instance has a
    primary key (its own if it had one), its product has the default variant
    it had, or this variant if it had none, and is marked for reindexing,
    and one event was added to the log. *)
Lemma save_inv info instance cleaned_input st (instance' : ProductVariant.t)
    (st' : State) :
  save info instance cleaned_input st = Return (instance', st') →
  ∃ pk,
    ProductVariant.pk instance' = Some pk
    ∧ (∀ k, ProductVariant.pk instance = Some k → pk = k)
    ∧ ProductVariant.product instance' =
        Product.set_search_index_dirty true
          (match Product.default_variant (ProductVariant.product instance) with
           | None =>
               Product.set_default_variant (Some pk) (ProductVariant.product instance)
           | Some _ => ProductVariant.product instance
           end)
    ∧ events st' =
        events st ++
          [match ProductVariant.pk instance with
           | None => product_variant_created instance'
           | Some _ => product_variant_updated instance'
           end].
Proof.
  unfold save. pose proof (set_track_inventory_frame info instance cleaned_input)
    as (Hpk & Hproduct).
  intros ([saved db1] & (pk & -> & Hkept)%Model_save_inv & Hrest)%bind_Return_inv.
  exists pk. cbn in Hrest.
  apply bind_Return_inv in Hrest as ([linked db2] & Hlink & Hrest).
  assert (ProductVariant.pk linked = Some pk
          ∧ ProductVariant.product linked =
              match Product.default_variant (ProductVariant.product instance) with
              | None =>
                  Product.set_default_variant (Some pk) (ProductVariant.product instance)
              | Some _ => ProductVariant.product instance
              end) as [Hlinked_pk Hlinked_product].
  { cbn in Hlink. rewrite Hproduct in Hlink.
    destruct (Product.default_variant (ProductVariant.product instance)).
    - by injection Hlink as <- _.
    - by apply bind_Return_inv in Hlink as (? & _ & [= <- _]). }
  cbn in Hrest.
  apply bind_Return_inv in Hrest as (db3 & _ & Hrest).
  apply bind_Return_inv in Hrest as (db4 & _ & Hrest).
  apply bind_Return_inv in Hrest as ([named db5] & Hname & Hrest).
  assert (ProductVariant.pk named = Some pk
          ∧ ProductVariant.product named = ProductVariant.product linked)
    as [Hnamed_pk Hnamed_product].
  { destruct (bool_decide (ProductVariant.name linked = "")).
    - by apply bind_Return_inv in Hname as ([? ?] & _ & [= <- _]).
    - by injection Hname as <- _. }
  cbn in Hrest.
  apply bind_Return_inv in Hrest as (db6 & _ & [= <- <-]).
  cbn. rewrite Hnamed_pk, Hnamed_product, Hlinked_product.
  split; [done |]. split; [by rewrite <- Hpk |]. split; [done |].
  unfold call_event. rewrite <- Hpk.
  by destruct (ProductVariant.pk (set_track_inventory info instance cleaned_input)).
Qed.

(** [instance.save()] writes no product row. *)
Lemma Model_save_stored (stored : Database → Z → option Z) instance
    (db db' : Database) (saved : ProductVariant.t) (product_pk : Z) :
  keeps_default_variant stored →
  Model_save instance db = Return (saved, db') →
  stored db' product_pk = stored db product_pk.
Proof.
  intros Hkeeps. unfold Model_save. destruct (ProductVariant.pk instance).
  - intros (db1 & Hupdate & [= _ <-])%bind_Return_inv.
    by apply (stored_update_variant _ Hkeeps) with instance.
  - intros ([pk db1] & Hinsert & [= _ <-])%bind_Return_inv.
    by apply (stored_insert_variant _ Hkeeps) with instance pk.
Qed.

(** What a run of [save] that returns leaves in the database for the default
    variants: the row of the instance's product holds the saved variant when
    the product came without default variant, and what it held otherwise;
    the rows of the other products hold what they held. *)
Lemma save_stored_inv (stored : Database → Z → option Z) info instance
    cleaned_input st (instance' : ProductVariant.t) (st' : State)
    (product_pk : Z) :
  keeps_default_variant stored →
  save info instance cleaned_input st = Return (instance', st') →
  stored (database st') product_pk =
    match Product.default_variant (ProductVariant.product instance) with
    | None =>
        if decide (product_pk = Product.pk (ProductVariant.product instance))
        then ProductVariant.pk instance'
        else stored (database st) product_pk
    | Some _ => stored (database st) product_pk
    end.
Proof.
  intros Hkeeps. unfold save.
  pose proof (set_track_inventory_frame info instance cleaned_input) as [_ Hproduct].
  revert Hproduct.
  generalize (set_track_inventory info instance cleaned_input). intros tracked Hproduct.
  intros ([saved db1] & Hsaved & Hrest)%bind_Return_inv.
  pose proof (Model_save_stored stored _ _ _ _ product_pk Hkeeps Hsaved) as Hdb1.
  apply Model_save_inv in Hsaved as (pk0 & -> & _).
  cbn in Hrest.
  apply bind_Return_inv in Hrest as ([linked db2] & Hlink & Hrest).
  rewrite Hproduct in Hlink.
  assert (ProductVariant.pk linked = Some pk0
          ∧ Product.pk (ProductVariant.product linked)
            = Product.pk (ProductVariant.product instance)
          ∧ stored db2 product_pk =
              match Product.default_variant (ProductVariant.product instance) with
              | None =>
                  if decide (product_pk = Product.pk (ProductVariant.product instance))
                  then Some pk0
                  else stored (database st) product_pk
              | Some _ => stored (database st) product_pk
              end) as (Hlinked_pk & Hlinked_product & Hdb2).
  { destruct (Product.default_variant (ProductVariant.product instance)).
    - injection Hlink as <- <-. cbn. by rewrite Hproduct.
    - apply bind_Return_inv in Hlink as (db & Hwrite & [= <- <-]). cbn.
      split; [done |]. split; [done |].
      destruct (decide (product_pk = Product.pk (ProductVariant.product instance)))
        as [-> | Hother].
      + apply (stored_save_product_field _ Hkeeps _ _ _ _ Hwrite). by left.
      + rewrite <- Hdb1.
        apply (stored_save_product_other _ Hkeeps _ _ _ _ _ Hwrite). by left. }
  cbn in Hrest.
  apply bind_Return_inv in Hrest as (db3 & Hstocks & Hrest).
  assert (stored db3 product_pk = stored db2 product_pk) as Hdb3.
  { destruct (truthy (cleaned_input.stocks cleaned_input)); [| by injection Hstocks as <-].
    unfold create_variant_stocks in Hstocks.
    apply bind_Return_inv in Hstocks as (warehouses & _ & Hcreate).
    by apply (stored_create_stocks _ Hkeeps _ _ _ _ _ _ Hcreate). }
  apply bind_Return_inv in Hrest as (db4 & Hattributes & Hrest).
  assert (stored db4 product_pk = stored db3 product_pk) as Hdb4.
  { destruct (truthy (cleaned_input.attributes cleaned_input));
      [| by injection Hattributes as <-].
    by apply (stored_AttributeAssignmentMixin_save _ Hkeeps _ _ _ _ _ Hattributes). }
  apply bind_Return_inv in Hrest as ([named db5] & Hnamed & Hrest).
  assert (ProductVariant.pk named = ProductVariant.pk linked
          ∧ stored db5 product_pk = stored db4 product_pk) as [Hnamed_pk Hdb5].
  { destruct (bool_decide (ProductVariant.name linked = "")).
    - apply bind_Return_inv in Hnamed as ([name db] & Hgenerate & [= <- <-]).
      split; [done |].
      by apply (stored_generate_and_set_variant_name _ Hkeeps _ _ _ _ _ _ Hgenerate).
    - by injection Hnamed as <- <-. }
  cbn in Hrest.
  apply bind_Return_inv in Hrest as (db6 & Hdirty & [= <- <-]). cbn.
  rewrite (stored_save_product_other _ Hkeeps _ _ _ _ product_pk Hdirty)
    by (right; by intros [=]%list_elem_of_singleton).
  by rewrite Hdb5, Hdb4, Hdb3, Hdb2, Hnamed_pk, Hlinked_pk.
Qed.


(** X14. The first variant saved for a product stays its default: a second
    variant saved for the product as the first run left it does not replace
    it. *)
Corollary save_second_variant info1 info2 first second cleaned1 cleaned2 st
    (first' second' : ProductVariant.t) (st1 st2 : State) :
  Product.default_variant (ProductVariant.product first) = None →
  save info1 first cleaned1 st = Return (first', st1) →
  ProductVariant.product second = ProductVariant.product first' →
  save info2 second cleaned2 st1 = Return (second', st2) →
  Product.default_variant (ProductVariant.product second') = ProductVariant.pk first'.
Proof.
  intros Hnone (pk1 & Hpk1 & _ & Hproduct1 & _)%save_inv Hsame
    (pk2 & _ & _ & Hproduct2 & _)%save_inv.
  rewrite Hproduct2, Hsame, Hproduct1, Hnone, Hpk1. done.
Qed.

(** C7. A run of [save] that returns adds exactly one event to the log:
    [product_variant_created] when the instance had no primary key when [save]
    was called, [product_variant_updated] when it had one.  The saved
    instance, which the event carries, has a primary key in both cases, so it
    is the key the instance came with that decides. *)
Theorem save_emits_one_event info instance cleaned_input st
    (instance' : ProductVariant.t) (st' : State) :
  save info instance cleaned_input st = Return (instance', st') →
  is_Some (ProductVariant.pk instance')
  ∧ events st' =
      events st ++
        [match ProductVariant.pk instance with
         | None => product_variant_created instance'
         | Some _ => product_variant_updated instance'
         end].
Proof. intros (pk & Hpk & _ & _ & Hevents)%save_inv. split; [by exists pk | done]. Qed.

End Save.

(** ** The properties on the example shop *)

(** Decides a closed proposition by evaluating its decision procedure. *)
Ltac by_evaluation :=
  lazymatch goal with
  | |- ?P => apply (@bool_decide_unpack P _); vm_compute; exact I
  end.

(** Proves [m = Return (a, b)], where [a] and [b] are read off the result of
    [m] by a match, by running [m] far enough to see that it returns. *)
Ltac by_running :=
  lazymatch goal with
  | |- ?m = Return _ =>
      let Hreturns := fresh "Hreturns" in
      assert (succeeded m = true) as Hreturns by (vm_compute; reflexivity);
      destruct m as [[? ?]|?]; [reflexivity | discriminate Hreturns]
  end.

Section Runs.
Import Example.

Lemma clean_attributes_not_variant_attributes_witness :
  ∃ invalid_attributes : gset string,
    clean_attributes (H:=shop)
      (input (Some shirt)
         [attribute "Attribute:1" ["red"]; attribute "Attribute:9" ["wool"]] [])
      (new_variant shirt) =
      Raise (Error "Given attributes are not a variant attributes."
               (Some ATTRIBUTE_CANNOT_BE_ASSIGNED)
               [("attributes", invalid_attributes)])
    ∧ ∀ id, id ∈ invalid_attributes ↔
            (∃ attr, attr ∈ [attribute "Attribute:1" ["red"];
                             attribute "Attribute:9" ["wool"]]
                     ∧ AttributeValueInput.id attr = id)
            ∧ id ∉ variant_attributes_ids (H:=shop) shirts.
Proof.
  apply (clean_attributes_not_variant_attributes (H:=shop)
           (input (Some shirt)
              [attribute "Attribute:1" ["red"]; attribute "Attribute:9" ["wool"]] [])
           (new_variant shirt) shirt).
  - reflexivity.
  - exists (attribute "Attribute:9" ["wool"]). split.
    + right. left.
    + by_evaluation.
Defined.


Lemma clean_attributes_required_whatever_the_instance_witness :
  clean_attributes (H:=shop) (input (Some shirt) [] []) (saved_variant shirt) =
    Raise (ErrorDict
             [("attributes",
               Error "All required attributes must take a value." (Some REQUIRED) [])])
  ∧ clean_attributes (H:=shop) (input (Some shirt) [] []) (new_variant shirt) =
      Raise (ErrorDict
               [("attributes",
                 Error "All required attributes must take a value."
                   (Some REQUIRED) [])]).
Proof.
  split;
    apply (clean_attributes_required_whatever_the_instance (H:=shop) _ _ shirt);
    try reflexivity; exists colour; (split; [left | reflexivity]).
Defined.

(** C3 fails: a negative weight together with a warehouse given twice gives
    the weight error and nothing about the stocks; a warehouse given twice
    together with an attribute that is no variant attribute gives the stocks
    error and nothing about the attribute. *)
Lemma clean_input_reports_one_violation :
  clean_input (H:=shop) None (new_variant shirt)
    (weighing (-1) (input (Some shirt) [attribute "Attribute:1" ["red"]]
                      [stock "W1" 5; stock "W1" 3])) =
    Raise (ErrorDict
             [("weight",
               Error "Product variant can't have negative weight." (Some INVALID) [])])
  ∧ clean_input (H:=shop) None (new_variant shirt)
      (input (Some shirt) [attribute "Attribute:9" ["wool"]]
         [stock "W1" 5; stock "W1" 3]) =
      Raise (ErrorDict
               [("stocks", Error "Duplicated warehouse ID: W1" (Some UNIQUE) [])])
  ∧ check_for_duplicates_in_stocks (H:=shop) [stock "W1" 5; stock "W1" 3] =
      Raise (ErrorDict
               [("stocks", Error "Duplicated warehouse ID: W1" (Some UNIQUE) [])])
  ∧ clean_attributes (H:=shop)
      (input (Some shirt) [attribute "Attribute:9" ["wool"]]
         [stock "W1" 5; stock "W1" 3])
      (new_variant shirt) =
      Raise (Error "Given attributes are not a variant attributes."
               (Some ATTRIBUTE_CANNOT_BE_ASSIGNED)
               [("attributes", {["Attribute:9"]})]).
Proof. repeat split; vm_compute; reflexivity. Qed.


Lemma check_for_duplicates_in_stocks_unique_witness :
  ∃ error_msg,
    check_for_duplicates_in_stocks (H:=shop) [stock "W1" 5; stock "W2" 1; stock "W1" 3] =
      Raise (ErrorDict [("stocks", Error error_msg (Some UNIQUE) [])])
    ∧ error_msg =
        "Duplicated warehouse ID: "
          +:+ join ", " (get_duplicated_values (Collaborators:=shop) ["W1"; "W2"; "W1"])
    ∧ ∀ warehouse,
        (1 < count ["W1"; "W2"; "W1"] warehouse)%nat →
        warehouse ∈ get_duplicated_values (Collaborators:=shop) ["W1"; "W2"; "W1"]
        ∧ ∃ before after, error_msg = before +:+ warehouse +:+ after.
Proof.
  apply (check_for_duplicates_in_stocks_unique (H:=shop)
           [stock "W1" 5; stock "W2" 1; stock "W1" 3]).
  - apply reference_gives_the_duplicated_values.
  - exists "W1". vm_compute. lia.
Defined.

(** C6 fails: the product type has no variants, the input submits an
    attribute, and the error is ATTRIBUTE_CANNOT_BE_ASSIGNED, not INVALID,
    since the attribute is not one of the type's variant attributes. *)
Lemma attribute_of_a_simple_product_not_invalid :
  ProductType.has_variants (Product.product_type gift_card) = false
  ∧ clean_attributes (H:=shop) (input (Some gift_card) [attribute "Attribute:1" ["red"]] [])
      (new_variant gift_card) =
      Raise (Error "Given attributes are not a variant attributes."
               (Some ATTRIBUTE_CANNOT_BE_ASSIGNED)
               [("attributes", {["Attribute:1"]})]).
Proof. split; [reflexivity | vm_compute; reflexivity]. Qed.

Lemma clean_attributes_without_variants_witness :
  clean_attributes (H:=shop) (input (Some gift_card) [attribute "Attribute:2" ["slim"]] [])
    (new_variant gift_card) =
    Raise (Error "Cannot assign attributes for product type without variants"
             (Some INVALID) [])
  ∧ clean_attributes (H:=shop) (input (Some gift_card) [] []) (new_variant gift_card) =
      Return (input (Some gift_card) [] []).
Proof.
  split.
  - apply (clean_attributes_without_variants (H:=shop)
             (input (Some gift_card) [attribute "Attribute:2" ["slim"]] [])
             (new_variant gift_card) gift_card); [reflexivity.. |].
    by_evaluation.
  - apply (clean_attributes_without_variants (H:=shop)
             (input (Some gift_card) [] []) (new_variant gift_card) gift_card);
      [reflexivity.. |].
    by_evaluation.
Defined.

Lemma save_emits_one_event_witness :
  is_Some (ProductVariant.pk created_variant)
  ∧ events state_after = [] ++ [product_variant_created created_variant].
Proof.
  apply (save_emits_one_event (H:=shop) (Some false) (new_variant shirt)
           cleaned_red_shirt state created_variant state_after).
  unfold created_variant, state_after, created. by_running.
Defined.

(** C8 fails: the product is null and a warehouse is given twice; the
    mutation fails on the stocks, and the product is never looked at. *)
Lemma null_product_after_stocks :
  cleaned_input.product
    (input (A:=AttributeValueInput.t) None [] [stock "W1" 5; stock "W1" 3]) = None
  ∧ clean_input (H:=shop) None (new_variant shirt)
      (input None [] [stock "W1" 5; stock "W1" 3]) =
      Raise (ErrorDict
               [("stocks", Error "Duplicated warehouse ID: W1" (Some UNIQUE) [])]).
Proof. split; [reflexivity | vm_compute; reflexivity]. Qed.

Lemma clean_input_without_product_witness :
  get_product (input (A:=AttributeValueInput.t) None [] [stock "W1" 5; stock "W2" 3])
    = Raise product_cannot_be_empty
  ∧ clean_attributes (H:=shop) (input None [] [stock "W1" 5; stock "W2" 3])
      (new_variant shirt) = Raise product_cannot_be_empty
  ∧ clean_input (H:=shop) None (new_variant shirt)
      (input None [] [stock "W1" 5; stock "W2" 3]) = Raise product_cannot_be_empty.
Proof.
  apply (clean_input_without_product (H:=shop) None (new_variant shirt)
           (input None [] [stock "W1" 5; stock "W2" 3])
           (input None [] [stock "W1" 5; stock "W2" 3])
           (input None [] [stock "W1" 5; stock "W2" 3]));
    vm_compute; reflexivity.
Defined.

Lemma clean_attributes_checks_membership_first_witness :
  clean_attributes (H:=shop)
    (input (Some gift_card) [attribute "Attribute:2" ["slim"]; attribute "Attribute:1" ["red"]] [])
    (new_variant gift_card) =
    Raise (Error "Given attributes are not a variant attributes."
             (Some ATTRIBUTE_CANNOT_BE_ASSIGNED)
             [("attributes",
               attributes_ids
                 (Some [attribute "Attribute:2" ["slim"]; attribute "Attribute:1" ["red"]])
                 ∖ variant_attributes_ids (H:=shop) gift_cards)]).
Proof.
  apply (proj1 (clean_attributes_checks_membership_first (H:=shop)
                  (input (Some gift_card)
                     [attribute "Attribute:2" ["slim"]; attribute "Attribute:1" ["red"]] [])
                  (new_variant gift_card)) gift_card).
  - reflexivity.
  - reflexivity.
  - exists (attribute "Attribute:1" ["red"]). split.
    + right. left.
    + by_evaluation.
Defined.

Lemma set_track_inventory_only_witness :
  set_track_inventory (H:=shop) None (saved_variant shirt) cleaned_red_shirt
    = saved_variant shirt
  ∧ ProductVariant.track_inventory
      (set_track_inventory (H:=shop) (Some false) (saved_variant shirt) cleaned_red_shirt)
    = false.
Proof.
  split.
  - apply (proj1 (set_track_inventory_only (H:=shop) None (saved_variant shirt)
                    cleaned_red_shirt)).
    reflexivity.
  - apply (proj1 (proj2 (set_track_inventory_only (H:=shop) (Some false)
                           (saved_variant shirt) cleaned_red_shirt)) false).
    reflexivity.
Defined.

End Runs.

(** * Further properties of the mutation *)

(** ** What [clean_attributes] returns and raises *)

Section CleanAttributesMore.
Context `{Collaborators}.

Implicit Types (cleaned_input : cleaned_input.t AttributeValueInput.t).
Implicit Types (instance : ProductVariant.t) (product : Product.t).

(** X1. [clean_attributes] assigns to the key "attributes" and to no other
    key: when it returns, every other entry of the dict is what the input
    had. *)
Theorem clean_attributes_other_keys cleaned_input instance
    (cleaned : cleaned_input.t (Attribute.t * AttrValuesInput.t)) :
  clean_attributes cleaned_input instance = Return cleaned →
  cleaned = cleaned_input.set_attributes (cleaned_input.attributes cleaned) cleaned_input.
Proof.
  unfold clean_attributes.
  intros (product & _ & Hrest)%bind_Return_inv. revert Hrest.
  case_bool_decide; [done |].
  destruct (ProductType.has_variants (Product.product_type product)).
  - destruct (truthy (cleaned_input.attributes cleaned_input)).
    + destruct (AttributeAssignmentMixin_clean_input _ _) as [cleaned_attributes|];
        [| done].
      cbn. destruct (validate_duplicated_attribute_values _ _); [| done].
      cbn. by intros [= <-].
    + cbn. case_match; [done |]. by intros [= <-].
  - case_match; [done |]. by intros [= <-].
Qed.

(** [clean_attributes] returns only on an input with a product whose
    submitted attribute IDs are all variant attributes of its type. *)
Lemma clean_attributes_Return_allowed cleaned_input instance
    (cleaned : cleaned_input.t (Attribute.t * AttrValuesInput.t)) :
  clean_attributes cleaned_input instance = Return cleaned →
  ∃ product,
    cleaned_input.product cleaned_input = Some product
    ∧ attributes_ids (cleaned_input.attributes cleaned_input)
        ⊆ variant_attributes_ids (Product.product_type product).
Proof.
  unfold clean_attributes, get_product.
  destruct (cleaned_input.product cleaned_input) as [product|];
    cbn [mbind Result_bind]; [| done].
  rewrite invalid_attributes_test. case_bool_decide as Hsub; [done |].
  intros _. by exists product.
Qed.

(** X2. When [clean_attributes] returns, the input had a product, every
    submitted attribute ID is a variant attribute of the product's type, and:
    for a type without variants the input submitted no attribute; for a
    configurable type the input either submitted attributes, which the mixin
    cleaned and the duplicate check passed and which are stored under
    "attributes", or submitted none, and then no variant attribute of the
    type is value-required. *)
Theorem clean_attributes_returns cleaned_input instance
    (cleaned : cleaned_input.t (Attribute.t * AttrValuesInput.t)) :
  clean_attributes cleaned_input instance = Return cleaned →
  ∃ product,
    cleaned_input.product cleaned_input = Some product
    ∧ attributes_ids (cleaned_input.attributes cleaned_input)
        ⊆ variant_attributes_ids (Product.product_type product)
    ∧ if ProductType.has_variants (Product.product_type product) then
        if truthy (cleaned_input.attributes cleaned_input) then
          ∃ cleaned_attributes,
            AttributeAssignmentMixin_clean_input
              (or_empty (cleaned_input.attributes cleaned_input))
              (ProductType.variant_attributes (Product.product_type product))
            = Return cleaned_attributes
            ∧ validate_duplicated_attribute_values cleaned_attributes
                (get_used_variants_attribute_values product) = Return ()
            ∧ cleaned_input.attributes cleaned = Some cleaned_attributes
        else
          (∀ attr, attr ∈ ProductType.variant_attributes (Product.product_type product) →
                   Attribute.value_required attr = false)
          ∧ truthy (cleaned_input.attributes cleaned) = false
      else
        truthy (cleaned_input.attributes cleaned_input) = false
        ∧ truthy (cleaned_input.attributes cleaned) = false.
Proof.
  intros Hclean.
  destruct (clean_attributes_Return_allowed _ _ _ Hclean) as (product & Hproduct & Hsub).
  exists product. split; [done |]. split; [done |].
  rewrite (clean_attributes_allowed _ _ product Hproduct Hsub) in Hclean.
  cbn zeta in Hclean.
  destruct (ProductType.has_variants (Product.product_type product)).
  - destruct (truthy (cleaned_input.attributes cleaned_input)) eqn:Htruthy.
    + destruct (AttributeAssignmentMixin_clean_input _ _) as [cleaned_attributes|];
        [| done].
      cbn in Hclean.
      destruct (validate_duplicated_attribute_values _ _) as [[]|] eqn:Hdup;
        [| done].
      injection Hclean as <-. by exists cleaned_attributes.
    + cbn in Hclean. destruct (filter _ _) as [|required ?] eqn:Hfilter; [| done].
      injection Hclean as <-. split.
      * intros attr Hattr. destruct (Attribute.value_required attr) eqn:Hreq; [| done].
        assert (attr ∈ filter (λ attr, Attribute.value_required attr = true)
                         (ProductType.variant_attributes
                            (Product.product_type product)))
          as Hin by (by apply list_elem_of_filter).
        rewrite Hfilter in Hin. by apply not_elem_of_nil in Hin.
      * cbn. by destruct (cleaned_input.attributes cleaned_input).
  - destruct (truthy (cleaned_input.attributes cleaned_input)); [done |].
    injection Hclean as <-. split; [done |].
    cbn. by destruct (cleaned_input.attributes cleaned_input).
Qed.

(** X3. The errors of [clean_attributes] are of four kinds and no other: the
    error of an input without product, under "product"; the error with code
    ATTRIBUTE_CANNOT_BE_ASSIGNED, under no field; the INVALID error of a type
    without variants, under no field; and whatever the validation of a
    configurable type raises, which is always under the field "attributes". *)
Theorem clean_attributes_raises cleaned_input instance (e : ValidationError) :
  clean_attributes cleaned_input instance = Raise e →
  e = product_cannot_be_empty
  ∨ (∃ invalid_attributes,
       e = Error "Given attributes are not a variant attributes."
             (Some ATTRIBUTE_CANNOT_BE_ASSIGNED) [("attributes", invalid_attributes)])
  ∨ e = Error "Cannot assign attributes for product type without variants"
          (Some INVALID) []
  ∨ ∃ e', e = ErrorDict [("attributes", e')].
Proof.
  unfold clean_attributes, get_product.
  destruct (cleaned_input.product cleaned_input) as [product|];
    cbn [mbind Result_bind]; [| intros [= <-]; by left].
  case_bool_decide; [intros [= <-]; right; left; eauto |].
  destruct (ProductType.has_variants (Product.product_type product)).
  - unfold try_except. case_match; [done |]. intros [= <-]. do 3 right. eauto.
  - case_match; [| done]. intros [= <-]. right. right. by left.
Qed.

(** X4. For a configurable type and submitted attributes that are all variant
    attributes, an error with one message, code and params that the mixin's
    cleaning raises is raised under "attributes" whatever the duplicate check
    would say, and such an error of the duplicate check is raised under
    "attributes" when the mixin's cleaning returned.  (For an error that is
    itself a dict of fields, Django's [ValidationError({"attributes": e})]
    does not build this error; the statement is about errors with a
    message.) *)
Theorem clean_attributes_wraps_validation cleaned_input instance product
    (message : string) (code : option ProductErrorCode)
    (params : list (string * gset string)) :
  cleaned_input.product cleaned_input = Some product →
  ProductType.has_variants (Product.product_type product) = true →
  truthy (cleaned_input.attributes cleaned_input) = true →
  attributes_ids (cleaned_input.attributes cleaned_input)
    ⊆ variant_attributes_ids (Product.product_type product) →
  (AttributeAssignmentMixin_clean_input
     (or_empty (cleaned_input.attributes cleaned_input))
     (ProductType.variant_attributes (Product.product_type product))
   = Raise (Error message code params)
   ∨ ∃ cleaned_attributes,
       AttributeAssignmentMixin_clean_input
         (or_empty (cleaned_input.attributes cleaned_input))
         (ProductType.variant_attributes (Product.product_type product))
       = Return cleaned_attributes
       ∧ validate_duplicated_attribute_values cleaned_attributes
           (get_used_variants_attribute_values product)
         = Raise (Error message code params)) →
  clean_attributes cleaned_input instance
  = Raise (ErrorDict [("attributes", Error message code params)]).
Proof.
  intros Hproduct Hconf Htruthy Hsub Hraise.
  rewrite (clean_attributes_allowed _ _ product Hproduct Hsub).
  cbn zeta. rewrite Hconf, Htruthy.
  destruct Hraise as [-> | (cleaned_attributes & -> & Hdup)]; [done |].
  cbn. by rewrite Hdup.
Qed.

End CleanAttributesMore.

(** ** What the clean phase guarantees *)

Lemma count_elem_of (values : list string) (x : string) :
  x ∈ values → (0 < count values x)%nat.
Proof.
  induction values as [|value values IH]; [by intros ?%not_elem_of_nil |].
  rewrite count_cons. intros [-> | Hx]%elem_of_cons.
  - rewrite decide_True by done. lia.
  - specialize (IH Hx). lia.
Qed.

(** Values none of which occurs twice are pairwise distinct. *)
Lemma NoDup_count (values : list string) :
  (∀ x, count values x ≤ 1)%nat → NoDup values.
Proof.
  induction values as [|value values IH]; [constructor |].
  intros Hcount. apply NoDup_cons. split.
  - intros Hin%count_elem_of. specialize (Hcount value).
    rewrite count_cons, decide_True in Hcount by done. lia.
  - apply IH. intros x. specialize (Hcount x). rewrite count_cons in Hcount. lia.
Qed.

Section CleanInputMore.
Context `{Collaborators}.

Implicit Types (info : ResolveInfo) (instance : ProductVariant.t) (data : Data).

(** X5. Granted that [get_duplicated_values] gives the values occurring more
    than once, the check of the stocks passes exactly when the warehouse IDs
    of the stocks are pairwise distinct. *)
Theorem check_stocks_passes_iff {A : Type} (cleaned_input : cleaned_input.t A) :
  gives_the_duplicated_values →
  check_stocks cleaned_input = Return () ↔
  NoDup (StockInput.warehouse <$> or_empty (cleaned_input.stocks cleaned_input)).
Proof.
  intros Hdup. unfold check_stocks.
  destruct (truthy (cleaned_input.stocks cleaned_input)) eqn:Htruthy.
  - unfold check_for_duplicates_in_stocks.
    destruct (get_duplicated_values _) as [|w ws] eqn:Hvalues; cbn.
    + split; [intros _ | done]. apply NoDup_count. intros x.
      destruct (decide (1 < count (StockInput.warehouse
                                     <$> or_empty (cleaned_input.stocks cleaned_input)) x)%nat)
        as [Hmore%Hdup | ?]; [| lia].
      rewrite Hvalues in Hmore. by apply not_elem_of_nil in Hmore.
    + split; [done |]. intros Hnodup.
      assert (w ∈ get_duplicated_values
                    (StockInput.warehouse
                       <$> or_empty (cleaned_input.stocks cleaned_input)))
        as Hw%Hdup by (rewrite Hvalues; left).
      pose proof (count_NoDup _ w Hnodup). lia.
  - rewrite (truthy_false_or_empty _ Htruthy). split; [intros _; constructor | done].
Qed.

(** X6. When [clean_input] returns, every step before it returned: the dict
    on which the attributes were cleaned had a product, its submitted
    attribute IDs were all variant attributes of the product's type, it
    passed the check of the stocks, and what is returned is what the cleaning
    of the preorder settings made of the dict with its SKU cleaned. *)
Theorem clean_input_returns info instance data
    (cleaned : cleaned_input.t (Attribute.t * AttrValuesInput.t)) :
  clean_input info instance data = Return cleaned →
  ∃ c0 c1 c2 c3 product,
    ModelMutation_clean_input info instance data = Return c0
    ∧ clean_weight c0 = Return c1
    ∧ clean_quantity_limit c1 = Return c2
    ∧ check_stocks c2 = Return ()
    ∧ cleaned_input.product c2 = Some product
    ∧ attributes_ids (cleaned_input.attributes c2)
        ⊆ variant_attributes_ids (Product.product_type product)
    ∧ clean_attributes c2 instance = Return c3
    ∧ clean_preorder_settings (clean_sku c3) = Return cleaned.
Proof.
  unfold clean_input.
  intros (c0 & Hbase & Hrest)%bind_Return_inv.
  apply bind_Return_inv in Hrest as (c1 & Hweight & Hrest).
  apply bind_Return_inv in Hrest as (c2 & Hlimit & Hrest).
  apply bind_Return_inv in Hrest as ([] & Hstocks & Hrest).
  apply bind_Return_inv in Hrest as (c3 & Hattributes & Hrest).
  apply bind_Return_inv in Hrest as (c4 & Hpreorder & [= <-]).
  destruct (clean_attributes_Return_allowed _ _ _ Hattributes)
    as (product & Hproduct & Hsub).
  by exists c0, c1, c2, c3, product.
Qed.

End CleanInputMore.

(** ** What [save] keeps and what it changes *)

Section SaveMore.
Context `{Collaborators}.

Implicit Types (info : ResolveInfo) (instance : ProductVariant.t) (st : State).

(** X7. Applying [set_track_inventory] twice with the same request and input
    gives what applying it once gives. *)
Theorem set_track_inventory_idempotent info instance {A : Type}
    (cleaned_input : cleaned_input.t A) :
  set_track_inventory info (set_track_inventory info instance cleaned_input) cleaned_input
  = set_track_inventory info instance cleaned_input.
Proof. unfold set_track_inventory. by destruct (get_track_inventory_by_default info). Qed.

(** X8. A run of [save] that returns leaves the SKU, the weight, the quantity
    limit and the external reference of the instance as they were, sets
    [track_inventory] to what [set_track_inventory] decides, and keeps a name
    that is not empty. *)
Theorem save_other_fields info instance cleaned_input st
    (instance' : ProductVariant.t) (st' : State) :
  save info instance cleaned_input st = Return (instance', st') →
  ProductVariant.sku instance' = ProductVariant.sku instance
  ∧ ProductVariant.weight instance' = ProductVariant.weight instance
  ∧ ProductVariant.quantity_limit_per_customer instance'
    = ProductVariant.quantity_limit_per_customer instance
  ∧ ProductVariant.external_reference instance'
    = ProductVariant.external_reference instance
  ∧ ProductVariant.track_inventory instance'
    = ProductVariant.track_inventory (set_track_inventory info instance cleaned_input)
  ∧ (ProductVariant.name instance ≠ "" →
     ProductVariant.name instance' = ProductVariant.name instance).
Proof.
  unfold save.
  assert (ProductVariant.sku (set_track_inventory info instance cleaned_input)
          = ProductVariant.sku instance
          ∧ ProductVariant.weight (set_track_inventory info instance cleaned_input)
            = ProductVariant.weight instance
          ∧ ProductVariant.quantity_limit_per_customer
              (set_track_inventory info instance cleaned_input)
            = ProductVariant.quantity_limit_per_customer instance
          ∧ ProductVariant.external_reference
              (set_track_inventory info instance cleaned_input)
            = ProductVariant.external_reference instance
          ∧ ProductVariant.name (set_track_inventory info instance cleaned_input)
            = ProductVariant.name instance)
    as (Hsku & Hweight & Hlimit & Hreference & Hname)
    by (unfold set_track_inventory; by destruct (get_track_inventory_by_default info)).
  generalize dependent (set_track_inventory info instance cleaned_input).
  intros tracked Hsku Hweight Hlimit Hreference Hname.
  intros ([saved db1] & (pk & -> & _)%Model_save_inv & Hrest)%bind_Return_inv.
  cbn in Hrest.
  apply bind_Return_inv in Hrest as ([linked db2] & Hlink & Hrest).
  assert (∃ product, linked = ProductVariant.set_product product
                                (ProductVariant.set_pk (Some pk) tracked))
    as [product ->].
  { destruct (Product.default_variant (ProductVariant.product tracked)).
    - injection Hlink as <- _. exists (ProductVariant.product tracked).
      by destruct tracked.
    - apply bind_Return_inv in Hlink as (? & _ & [= <- _]). eauto. }
  cbn in Hrest.
  apply bind_Return_inv in Hrest as (db3 & _ & Hrest).
  apply bind_Return_inv in Hrest as (db4 & _ & Hrest).
  apply bind_Return_inv in Hrest as ([named db5] & Hnamed & Hrest).
  apply bind_Return_inv in Hrest as (db6 & _ & [= <- _]).
  cbn in Hnamed. cbn. case_bool_decide as Hempty.
  - apply bind_Return_inv in Hnamed as ([name ?] & _ & [= <- _]). cbn.
    repeat split; try done. intros Hne. by rewrite <- Hname in Hne.
  - injection Hnamed as <- _. by cbn.
Qed.

(** X9. A run of [save] that returns keeps the primary key of an instance
    that had one, and leaves the product of the instance marked for
    reindexing, with the primary key and the type it had. *)
Theorem save_keeps_identity info instance cleaned_input st
    (instance' : ProductVariant.t) (st' : State) :
  save info instance cleaned_input st = Return (instance', st') →
  (∀ pk, ProductVariant.pk instance = Some pk → ProductVariant.pk instance' = Some pk)
  ∧ Product.search_index_dirty (ProductVariant.product instance') = true
  ∧ Product.pk (ProductVariant.product instance')
    = Product.pk (ProductVariant.product instance)
  ∧ Product.product_type (ProductVariant.product instance')
    = Product.product_type (ProductVariant.product instance).
Proof.
  intros (pk & Hpk & Hkept & Hproduct & _)%save_inv. rewrite Hproduct.
  split; [intros k Hk; by rewrite Hpk, (Hkept k Hk) |].
  by destruct (Product.default_variant (ProductVariant.product instance)).
Qed.

(** X10. Saving the instance that a run of [save] returned is an update: the
    second run keeps the primary key and the default variant of the product,
    and the log holds the event of the first run followed by one
    [product_variant_updated]. *)
Theorem save_again_is_update info1 info2 instance cleaned1 cleaned2 st
    (instance1 instance2 : ProductVariant.t) (st1 st2 : State) :
  save info1 instance cleaned1 st = Return (instance1, st1) →
  save info2 instance1 cleaned2 st1 = Return (instance2, st2) →
  ProductVariant.pk instance2 = ProductVariant.pk instance1
  ∧ Product.default_variant (ProductVariant.product instance2)
    = Product.default_variant (ProductVariant.product instance1)
  ∧ events st2 =
      events st ++
        [match ProductVariant.pk instance with
         | None => product_variant_created instance1
         | Some _ => product_variant_updated instance1
         end;
         product_variant_updated instance2].
Proof.
  intros (pk1 & Hpk1 & _ & Hproduct1 & Hevents1)%save_inv
    (pk2 & Hpk2 & Hkept2 & Hproduct2 & Hevents2)%save_inv.
  rewrite (Hkept2 pk1 Hpk1) in *.
  split; [by rewrite Hpk1, Hpk2 |]. split.
  - rewrite Hproduct2, Hproduct1.
    destruct (Product.default_variant (ProductVariant.product instance)) eqn:Hdefault;
      cbn; by rewrite ?Hdefault.
  - by rewrite Hevents2, Hevents1, Hpk1, <- (assoc_L (++)).
Qed.

End SaveMore.

(** ** Stocks that cannot be created, and the channels to recalculate *)

Section StocksAndChannels.
Context `{Collaborators}.

Implicit Types (info : ResolveInfo) (instance : ProductVariant.t) (st : State).

(** X11. When the variant row and the default-variant link were written and
    the input has stocks, an error of [get_nodes_or_error] on the warehouse
    IDs of the stocks is the error of [save]: the warehouses are resolved, on
    the database as the link left it, before any stock is created, and [save]
    does not go on to the attributes, the name or the event. *)
Theorem save_unresolved_warehouse info instance cleaned_input st
    (saved : ProductVariant.t) (db1 db2 : Database) (e : Exception) :
  Model_save (set_track_inventory info instance cleaned_input) (database st)
    = Return (saved, db1) →
  match Product.default_variant (ProductVariant.product saved) with
  | None =>
      save_product ["default_variant"; "updated_at"]
        (Product.set_default_variant (ProductVariant.pk saved)
           (ProductVariant.product saved))
        db1
  | Some _ => Return db1
  end = Return db2 →
  truthy (cleaned_input.stocks cleaned_input) = true →
  get_nodes_or_error
    (StockInput.warehouse <$> or_empty (cleaned_input.stocks cleaned_input))
    "warehouse" db2 = Raise e →
  save info instance cleaned_input st = Raise e.
Proof.
  intros Hsaved Hlink Hstocks Hresolve. unfold save.
  rewrite Hsaved. cbn [mbind Result_bind]. cbn beta iota.
  destruct (Product.default_variant (ProductVariant.product saved)).
  - injection Hlink as ->. cbn. rewrite Hstocks. unfold create_variant_stocks.
    by rewrite Hresolve.
  - cbn. rewrite Hlink. cbn. rewrite Hstocks. unfold create_variant_stocks.
    by rewrite Hresolve.
Qed.

(** X12. [post_save_action] adds exactly one call of
    [mark_active_catalogue_promotion_rules_as_dirty] to the calls made, and
    the channel IDs it passes are those of the listings of the instance's
    product: a channel is passed exactly when some listing of that product
    is in it. *)
Theorem post_save_action_channels (listings : list ProductChannelListing.t)
    instance (calls : list PostSaveCall) :
  ∃ channel_ids,
    post_save_action listings instance calls
    = calls ++ [mark_active_catalogue_promotion_rules_as_dirty channel_ids]
    ∧ ∀ channel,
        channel ∈ channel_ids ↔
        ∃ listing,
          listing ∈ listings
          ∧ ProductChannelListing.product_id listing
            = Product.pk (ProductVariant.product instance)
          ∧ ProductChannelListing.channel_id listing = channel.
Proof.
  eexists. split; [reflexivity |]. intros channel.
  rewrite list_elem_of_fmap. split.
  - intros (listing & -> & [Hproduct Hin]%list_elem_of_filter). by exists listing.
  - intros (listing & Hin & Hproduct & <-). exists listing. split; [done |].
    by apply list_elem_of_filter.
Qed.

(** X13. For a product that no listing names, [post_save_action] still makes
    its call, with no channel. *)
Theorem post_save_action_unlisted (listings : list ProductChannelListing.t)
    instance (calls : list PostSaveCall) :
  (∀ listing, listing ∈ listings →
              ProductChannelListing.product_id listing
              ≠ Product.pk (ProductVariant.product instance)) →
  post_save_action listings instance calls
  = calls ++ [mark_active_catalogue_promotion_rules_as_dirty []].
Proof.
  intros Hunlisted. unfold post_save_action.
  replace (filter _ listings) with (@nil ProductChannelListing.t); [done |].
  symmetry. induction listings as [|listing listings IH]; [done |].
  rewrite filter_cons, decide_False by (apply Hunlisted; left).
  apply IH. intros other Hother. apply Hunlisted. by right.
Qed.

End StocksAndChannels.

(** ** The further properties on the example shop *)

Section MoreRuns.
Import Example.

Lemma clean_attributes_other_keys_witness :
  cleaned_input.set_attributes
    (Some [(colour, {| AttrValuesInput.global_id := "Attribute:1";
                       AttrValuesInput.values := ["red"] |})])
    red_shirt
  = cleaned_input.set_attributes
      (cleaned_input.attributes
         (cleaned_input.set_attributes
            (Some [(colour, {| AttrValuesInput.global_id := "Attribute:1";
                               AttrValuesInput.values := ["red"] |})])
            red_shirt))
      red_shirt.
Proof.
  apply (clean_attributes_other_keys (H:=shop) red_shirt (new_variant shirt)).
  vm_compute. reflexivity.
Defined.

Lemma clean_attributes_returns_witness :
  ∃ product,
    cleaned_input.product (input (A:=AttributeValueInput.t) (Some gift_card) [] [])
    = Some product
    ∧ attributes_ids (Some [])
        ⊆ variant_attributes_ids (H:=shop) (Product.product_type product)
    ∧ if ProductType.has_variants (Product.product_type product) then
        if truthy (Some (@nil AttributeValueInput.t)) then
          ∃ cleaned_attributes,
            AttributeAssignmentMixin_clean_input (Collaborators:=shop) []
              (ProductType.variant_attributes (Product.product_type product))
            = Return cleaned_attributes
            ∧ validate_duplicated_attribute_values (Collaborators:=shop)
                cleaned_attributes
                (get_used_variants_attribute_values (Collaborators:=shop) product)
              = Return ()
            ∧ cleaned_input.attributes
                (input (A:=Attribute.t * AttrValuesInput.t) (Some gift_card) [] [])
              = Some cleaned_attributes
        else
          (∀ attr, attr ∈ ProductType.variant_attributes (Product.product_type product) →
                   Attribute.value_required attr = false)
          ∧ truthy (cleaned_input.attributes
                      (input (A:=Attribute.t * AttrValuesInput.t)
                         (Some gift_card) [] [])) = false
      else
        truthy (Some (@nil AttributeValueInput.t)) = false
        ∧ truthy (cleaned_input.attributes
                    (input (A:=Attribute.t * AttrValuesInput.t)
                       (Some gift_card) [] [])) = false.
Proof.
  apply (clean_attributes_returns (H:=shop) (input (Some gift_card) [] [])
           (new_variant gift_card) (input (Some gift_card) [] [])).
  vm_compute. reflexivity.
Defined.

Lemma clean_attributes_raises_witness :
  product_cannot_be_empty = product_cannot_be_empty
  ∨ (∃ invalid_attributes,
       product_cannot_be_empty
       = Error "Given attributes are not a variant attributes."
           (Some ATTRIBUTE_CANNOT_BE_ASSIGNED) [("attributes", invalid_attributes)])
  ∨ product_cannot_be_empty
    = Error "Cannot assign attributes for product type without variants"
        (Some INVALID) []
  ∨ ∃ e', product_cannot_be_empty = ErrorDict [("attributes", e')].
Proof.
  apply (clean_attributes_raises (H:=shop)
           (input None [attribute "Attribute:9" ["wool"]] []) (new_variant shirt)).
  vm_compute. reflexivity.
Defined.

Lemma clean_attributes_wraps_validation_witness :
  clean_attributes (H:=shop) (input (Some shirt) [attribute "Attribute:1" []] [])
    (new_variant shirt)
  = Raise (ErrorDict
             [("attributes",
               Error "Attribute expects a value but none were given."
                 (Some REQUIRED) [("attributes", {["Attribute:1"]})])]).
Proof.
  apply (clean_attributes_wraps_validation (H:=shop)
           (input (Some shirt) [attribute "Attribute:1" []] [])
           (new_variant shirt) shirt).
  - reflexivity.
  - reflexivity.
  - reflexivity.
  - by_evaluation.
  - left. vm_compute. reflexivity.
Defined.

Lemma check_stocks_passes_iff_witness :
  check_stocks (H:=shop) red_shirt = Return () ↔ NoDup ["W1"; "W2"].
Proof.
  apply (check_stocks_passes_iff (H:=shop) red_shirt).
  apply reference_gives_the_duplicated_values.
Defined.

Lemma clean_input_returns_witness :
  ∃ c0 c1 c2 c3 product,
    ModelMutation_clean_input (Collaborators:=shop) None (new_variant shirt) red_shirt
    = Return c0
    ∧ clean_weight (Collaborators:=shop) c0 = Return c1
    ∧ clean_quantity_limit (Collaborators:=shop) c1 = Return c2
    ∧ check_stocks (H:=shop) c2 = Return ()
    ∧ cleaned_input.product c2 = Some product
    ∧ attributes_ids (cleaned_input.attributes c2)
        ⊆ variant_attributes_ids (H:=shop) (Product.product_type product)
    ∧ clean_attributes (H:=shop) c2 (new_variant shirt) = Return c3
    ∧ clean_preorder_settings (Collaborators:=shop) (clean_sku (H:=shop) c3)
      = Return cleaned_red_shirt.
Proof.
  apply (clean_input_returns (H:=shop) None (new_variant shirt) red_shirt
           cleaned_red_shirt).
  vm_compute. reflexivity.
Defined.

Lemma save_other_fields_witness :
  ProductVariant.sku updated_variant = ProductVariant.sku created_variant
  ∧ ProductVariant.weight updated_variant = ProductVariant.weight created_variant
  ∧ ProductVariant.quantity_limit_per_customer updated_variant
    = ProductVariant.quantity_limit_per_customer created_variant
  ∧ ProductVariant.external_reference updated_variant
    = ProductVariant.external_reference created_variant
  ∧ ProductVariant.track_inventory updated_variant
    = ProductVariant.track_inventory
        (set_track_inventory (H:=shop) (Some true) created_variant
           (cleaned_input.set_attributes (B:=Attribute.t * AttrValuesInput.t)
              None red_shirt))
  ∧ (ProductVariant.name created_variant ≠ "" →
     ProductVariant.name updated_variant = ProductVariant.name created_variant).
Proof.
  apply (save_other_fields (H:=shop) (Some true) created_variant
           (cleaned_input.set_attributes None red_shirt) state_after
           updated_variant state_updated).
  unfold updated_variant, state_updated, updated. by_running.
Defined.

Lemma save_keeps_identity_witness :
  (∀ pk, ProductVariant.pk created_variant = Some pk →
         ProductVariant.pk updated_variant = Some pk)
  ∧ Product.search_index_dirty (ProductVariant.product updated_variant) = true
  ∧ Product.pk (ProductVariant.product updated_variant)
    = Product.pk (ProductVariant.product created_variant)
  ∧ Product.product_type (ProductVariant.product updated_variant)
    = Product.product_type (ProductVariant.product created_variant).
Proof.
  apply (save_keeps_identity (H:=shop) (Some true) created_variant
           (cleaned_input.set_attributes None red_shirt) state_after
           updated_variant state_updated).
  unfold updated_variant, state_updated, updated. by_running.
Defined.

Lemma save_again_is_update_witness :
  ProductVariant.pk updated_variant = ProductVariant.pk created_variant
  ∧ Product.default_variant (ProductVariant.product updated_variant)
    = Product.default_variant (ProductVariant.product created_variant)
  ∧ events state_updated =
      [] ++ [product_variant_created created_variant;
             product_variant_updated updated_variant].
Proof.
  apply (save_again_is_update (H:=shop) (Some false) (Some true) (new_variant shirt)
           cleaned_red_shirt (cleaned_input.set_attributes None red_shirt) state
           created_variant updated_variant state_after state_updated).
  - unfold created_variant, state_after, created. by_running.
  - unfold updated_variant, state_updated, updated. by_running.
Defined.

Lemma save_second_variant_witness :
  Product.default_variant (ProductVariant.product second_created_variant)
  = ProductVariant.pk created_variant.
Proof.
  apply (save_second_variant (H:=shop) (Some false) None (new_variant shirt)
           second_variant cleaned_red_shirt (input (Some shirt) [] []) state
           created_variant second_created_variant state_after state_second).
  - reflexivity.
  - unfold created_variant, state_after, created. by_running.
  - reflexivity.
  - unfold second_created_variant, state_second, second_created. by_running.
Defined.

Lemma save_unresolved_warehouse_witness :
  save (H:=shop) None (new_variant shirt)
    (input (Some shirt) [] [stock "W1" 5; stock "W9" 3]) state
  = Raise (Validation
             (ErrorDict
                [("warehouse",
                  Error "Could not resolve to a node." (Some NOT_FOUND) [])])).
Proof.
  apply (save_unresolved_warehouse (H:=shop) None (new_variant shirt)
           (input (Some shirt) [] [stock "W1" 5; stock "W9" 3]) state
           (ProductVariant.set_pk (Some 1) (new_variant shirt))
           (Reference.set_next_variant_pk 2
              (Reference.set_variant_rows
                 {[ 1 := ProductVariant.set_pk (Some 1) (new_variant shirt) ]} db))
           (Reference.set_product_rows
              (<[10 := Product.set_default_variant (Some 1) shirt]>
                 (Reference.product_rows db))
              (Reference.set_next_variant_pk 2
                 (Reference.set_variant_rows
                    {[ 1 := ProductVariant.set_pk (Some 1) (new_variant shirt) ]} db))));
    vm_compute; reflexivity.
Defined.

Lemma post_save_action_unlisted_witness :
  post_save_action listings (new_variant (Product.set_default_variant None
                                            {| Product.pk := 12;
                                               Product.product_type := shirts;
                                               Product.default_variant := None;
                                               Product.search_index_dirty := false |}))
    []
  = [] ++ [mark_active_catalogue_promotion_rules_as_dirty []].
Proof.
  apply (post_save_action_unlisted listings).
  intros listing Hin. repeat (apply elem_of_cons in Hin as [-> | Hin]; [done |]).
  by apply not_elem_of_nil in Hin.
Defined.

End MoreRuns.
